(** * Content-pack service (main.py): shallow embedding and properties

    The service reads JSON content packs from a data directory and serves
    them through a handful of read-only endpoints.  This development
    embeds the helpers ([load_pack], [filter_sections]) and the endpoints
    ([get_pack], [search_pack], [render_payload], [schema], [preview]) as
    Rocq functions over an explicit picture of the disk, and proves the
    properties stated for them.

    Conventions.
    - A Python [str] is a [string]; its characters are the code points
      U+0000..U+00FF.  On that range [str.lower] is character-wise and
      [str.strip] removes the twelve white-space code points listed in
      [isspace], so both are defined here in full.
    - A Python [dict] is an association list in insertion order.
    - A Python exception is a value of [exn]; a computation that may
      raise returns [result]. *)

From Stdlib Require Import String Ascii List Bool Arith NArith Lia.
Import ListNotations.
Open Scope list_scope.
Open Scope string_scope.

(* ================================================================= *)
(** ** Python strings *)

Module PyStr.

(** Code point of a character. *)
Definition ord (c : ascii) : N := N_of_ascii c.

(** [c.lower()] for one character: A..Z and the Latin-1 capitals
    U+00C0..U+00DE (without the multiplication sign U+00D7) move up by 32;
    every other code point below 256 is its own lowercase. *)
Definition lower_char (c : ascii) : ascii :=
  let n := ord c in
  if ((65 <=? n) && (n <=? 90)
      || (192 <=? n) && (n <=? 222) && negb (n =? 215))%N
  then ascii_of_N (n + 32)
  else c.

(** [s.lower()] *)
Fixpoint lower (s : string) : string :=
  match s with
  | EmptyString => EmptyString
  | String c s' => String (lower_char c) (lower s')
  end.

(** [c.isspace()]: TAB, LF, VT, FF, CR, FS, GS, RS, US, SPACE, NEL, NBSP. *)
Definition isspace (c : ascii) : bool :=
  let n := ord c in
  ((9 <=? n) && (n <=? 13) || (28 <=? n) && (n <=? 32)
   || (n =? 133) || (n =? 160))%N.

(** [s.lstrip()] *)
Fixpoint lstrip (s : string) : string :=
  match s with
  | EmptyString => EmptyString
  | String c s' => if isspace c then lstrip s' else s
  end.

(** [s.rstrip()] *)
Fixpoint rstrip (s : string) : string :=
  match s with
  | EmptyString => EmptyString
  | String c s' =>
      match rstrip s' with
      | EmptyString => if isspace c then EmptyString else String c EmptyString
      | r => String c r
      end
  end.

(** [s.strip()] *)
Definition strip (s : string) : string := rstrip (lstrip s).

(** [s.startswith(p)] *)
Fixpoint startswith (p s : string) : bool :=
  match p, s with
  | EmptyString, _ => true
  | String _ _, EmptyString => false
  | String a p', String b s' => Ascii.eqb a b && startswith p' s'
  end.

(** [q in s] *)
Fixpoint contains (q s : string) : bool :=
  startswith q s
  || match s with
     | EmptyString => false
     | String _ s' => contains q s'
     end.

(** [s.endswith(p)] *)
Fixpoint endswith (p s : string) : bool :=
  String.eqb p s
  || match s with
     | EmptyString => false
     | String _ s' => endswith p s'
     end.

(** [s.split(sep)[0]] for a non-empty [sep]: the part of [s] before the
    first occurrence of [sep], or all of [s] when there is none. *)
Fixpoint split_head (sep s : string) : string :=
  if startswith sep s then EmptyString
  else match s with
       | EmptyString => EmptyString
       | String c s' => String c (split_head sep s')
       end.

(** [s[:n]] *)
Fixpoint slice_to (n : nat) (s : string) : string :=
  match n, s with
  | O, _ => EmptyString
  | _, EmptyString => EmptyString
  | S n', String c s' => String c (slice_to n' s')
  end.

(** [bool(s)]: a string is truthy when it is not empty. *)
Definition truthy (s : string) : bool :=
  match s with EmptyString => false | _ => true end.

(** Every character of [s] is white space. *)
Fixpoint all_space (s : string) : bool :=
  match s with
  | EmptyString => true
  | String c s' => isspace c && all_space s'
  end.

(** [q] occurs in [s] as a contiguous block. *)
Definition substring_of (q s : string) : Prop :=
  exists pre post, s = pre ++ q ++ post.

End PyStr.

Import PyStr.

(* ================================================================= *)
(** ** JSON values, exceptions and the disk *)

(** What [json.load] returns.  An object is a Python [dict]: its entries
    in document order.  A number keeps its literal. *)
#[warnings="-register-all"]
Inductive json : Type :=
| JNull
| JBool (b : bool)
| JNum (literal : string)
| JStr (s : string)
| JArr (items : list json)
| JObj (entries : list (string * json)).

(** A [Dict[str, Any]]. *)
Definition dict : Type := list (string * json).

(** [d.get(k)]: the value stored under [k], if any. *)
Fixpoint dict_get (k : string) (d : dict) : option json :=
  match d with
  | [] => None
  | (k', v) :: d' => if String.eqb k k' then Some v else dict_get k d'
  end.

(** [d.keys()] *)
Definition dict_keys (d : dict) : list string := map fst d.

(** A Python [dict] never holds a key twice. *)
Definition dict_wf (d : dict) : Prop := NoDup (dict_keys d).

(** [k in keys] for a list of strings. *)
Definition in_list (k : string) (keys : list string) : bool :=
  existsb (String.eqb k) keys.

(** The exceptions the service can meet. *)
Inductive exn : Type :=
| FileNotFoundError (message : string)
| JSONDecodeError
| AttributeError
| HTTPException (status_code : nat) (detail : string).

Inductive result (A : Type) : Type :=
| Ok (a : A)
| Raise (e : exn).
Arguments Ok {A} a.
Arguments Raise {A} e.

Definition bind {A B : Type} (r : result A) (k : A -> result B) : result B :=
  match r with
  | Ok a => k a
  | Raise e => Raise e
  end.

Notation "x <- r ;; k" := (bind r (fun x => k))
  (at level 61, r at next level, right associativity).

(** The status the framework answers with: 200 for a returned body, the
    status of a raised [HTTPException], 500 for any other exception. *)
Definition http_status {A : Type} (r : result A) : nat :=
  match r with
  | Ok _ => 200
  | Raise (HTTPException status _) => status
  | Raise _ => 500
  end.

(** A regular file as [json.load] sees it: its text either parses to a
    value or does not parse. *)
Inductive file : Type :=
| Malformed
| Document (j : json).

(** The disk below [ROOT]: the entries of [ROOT/data] by file name, in
    the order [os.listdir] yields them, and [ROOT/app_schema/config.json]
    when it exists. *)
Record disk : Type := Disk {
  data_dir : list (string * file);
  config_json : option file
}.

(** The file called [fname] inside a directory; [None] when
    [os.path.exists] is false. *)
Fixpoint dir_lookup (fname : string) (dir : list (string * file)) : option file :=
  match dir with
  | [] => None
  | (name, f) :: dir' =>
      if String.eqb fname name then Some f else dir_lookup fname dir'
  end.

(** [json.load] on an open file. *)
Definition json_load (f : file) : result json :=
  match f with
  | Malformed => Raise JSONDecodeError
  | Document j => Ok j
  end.

(* ================================================================= *)
(** ** Request and response models *)

Module PackRequest.
Record t : Type := Make {
    pack : string;
    sections : option (list string);
    format : option string;
    options : option dict
  }.
End PackRequest.

Module SearchRequest.
Record t : Type := Make { q : string }.
End SearchRequest.

Module Meta.
Record t : Type := Make { format : option string; options : dict }.
End Meta.

Module PackResponse.
Record t : Type := Make { pack : string; content : json; meta : Meta.t }.
End PackResponse.

Module Hit.
Record t : Type := Make { pack : string; section : string; excerpt : string }.
End Hit.

Module SearchResponse.
Record t : Type := Make { query : string; results : list Hit.t }.
End SearchResponse.

(** A palette is a record of colour names to colour codes. *)
Definition colours : Type := list (string * string).

Module Style.
Record t : Type := Make {
    theme : string;
    palette : colours;
    fonts : list string
  }.
End Style.

Module Payload.
Record t : Type := Make {
    pack : string;
    style : Style.t;
    sections : json;
    options : dict
  }.
End Payload.

(* ================================================================= *)
(** ** Helpers *)

(** The file name [load_pack] joins to [DATA_DIR]. *)
Definition pack_file (pack_name : string) : string :=
  lower pack_name ++ ".json".

Definition load_pack (dk : disk) (pack_name : string) : result json :=
  let fname := pack_file pack_name in
  match dir_lookup fname (data_dir dk) with
  | None => Raise (FileNotFoundError ("Pack not found: " ++ pack_name))
  | Some f => json_load f
  end.

(** [full_pack.items()]: only a [dict] has the method. *)
Definition items (full_pack : json) : result dict :=
  match full_pack with
  | JObj d => Ok d
  | _ => Raise AttributeError
  end.

Definition filter_sections (full_pack : json) (keys : option (list string))
  : result json :=
  match keys with
  | None | Some [] => Ok full_pack
  | Some ks =>
      kvs <- items full_pack ;;
      Ok (JObj (filter (fun kv => in_list (fst kv) ks) kvs))
  end.

(** [x or {}] *)
Definition or_empty (x : option dict) : dict :=
  match x with
  | Some (e :: d) => e :: d
  | _ => []
  end.

(** [[f.split(".json")[0] for f in os.listdir(DATA_DIR) if f.endswith(".json")]] *)
Definition listed_packs (dk : disk) : list string :=
  map (split_head ".json")
      (filter (endswith ".json") (map fst (data_dir dk))).

(* ================================================================= *)
(** ** Endpoints *)

Definition list_packs (dk : disk) : list string := listed_packs dk.

Definition get_pack (dk : disk) (req : PackRequest.t) : result PackResponse.t :=
  let pack_name := lower (PackRequest.pack req) in
  match load_pack dk pack_name with
  | Raise (FileNotFoundError _) =>
      Raise (HTTPException 404 ("Pack '" ++ pack_name ++ "' not found."))
  | Raise e => Raise e
  | Ok content =>
      filtered <- filter_sections content (PackRequest.sections req) ;;
      Ok (PackResponse.Make pack_name filtered
            (Meta.Make (PackRequest.format req)
                       (or_empty (PackRequest.options req))))
  end.

(** The inner loop of [search_pack]: the sections of one pack.  Only a
    [str] has [lower]; any other value raises before the test. *)
Fixpoint search_sections (q p : string) (data : dict) (results : list Hit.t)
  : result (list Hit.t) :=
  match data with
  | [] => Ok results
  | (sec, JStr text) :: rest =>
      if contains q (lower sec ++ " " ++ lower text)
      then search_sections q p rest
             (results ++ [Hit.Make p sec (slice_to 300 text)])%list
      else search_sections q p rest results
  | (sec, _) :: rest => Raise AttributeError
  end.

(** The outer loop of [search_pack]: the packs in scope. *)
Fixpoint search_packs (dk : disk) (q : string) (packs : list string)
  (results : list Hit.t) : result (list Hit.t) :=
  match packs with
  | [] => Ok results
  | p :: rest =>
      match load_pack dk p with
      | Raise (FileNotFoundError _) => search_packs dk q rest results
      | Raise e => Raise e
      | Ok data =>
          kvs <- items data ;;
          results' <- search_sections q p kvs results ;;
          search_packs dk q rest results'
      end
  end.

(** [[pack] if pack else [... os.listdir ...]] *)
Definition search_scope (dk : disk) (pack : option string) : list string :=
  match pack with
  | Some p => if truthy p then [p] else listed_packs dk
  | None => listed_packs dk
  end.

Definition search_pack (dk : disk) (req : SearchRequest.t) (pack : option string)
  : result SearchResponse.t :=
  let q := lower (strip (SearchRequest.q req)) in
  let packs := search_scope dk pack in
  results <- search_packs dk q packs [] ;;
  Ok (SearchResponse.Make q results).

(** The palette table of [render_payload]. *)
Definition palettes : list (string * colours) :=
  [ ("nlp", [("bg", "#ffffff"); ("primary", "#0B5F9A"); ("accent", "#2A9D7D")]);
    ("hypnosis", [("bg", "#e8f2ff"); ("primary", "#4750B8"); ("accent", "#2AA199")]);
    ("sales", [("bg", "#fff9e6"); ("primary", "#D9534F"); ("accent", "#E89E2D")]) ].

(** [table.get(k, {})] *)
Fixpoint palette_get (k : string) (table : list (string * colours)) : colours :=
  match table with
  | [] => []
  | (k', v) :: table' => if String.eqb k k' then v else palette_get k table'
  end.

Definition render_payload (dk : disk) (req : PackRequest.t) : result Payload.t :=
  match load_pack dk (lower (PackRequest.pack req)) with
  | Raise (FileNotFoundError _) =>
      Raise (HTTPException 404
               ("Pack '" ++ PackRequest.pack req ++ "' not found."))
  | Raise e => Raise e
  | Ok content =>
      sections <- filter_sections content (PackRequest.sections req) ;;
      Ok (Payload.Make
            (PackRequest.pack req)
            (Style.Make (lower (PackRequest.pack req))
                        (palette_get (lower (PackRequest.pack req)) palettes)
                        ["Inter"; "Nunito"])
            sections
            (or_empty (PackRequest.options req)))
  end.

Definition schema (dk : disk) : result json :=
  match config_json dk with
  | Some f => json_load f
  | None => Ok (JObj [("error", JStr "config.json missing")])
  end.

Section Preview.

  (** Two built-ins that are taken as given: [str.title], whose results
    leave the code points below 256, and the text an f-string prints
    for a value that is not a [str] (numbers, lists, nested objects). *)
Variable title : string -> string.
Variable format_value : json -> string.

(** [f"{v}"] *)
Definition fstring (v : json) : string :=
  match v with
  | JStr s => s
  | _ => format_value v
  end.

(** The loop that appends one section element per entry. *)
Fixpoint preview_sections (content : dict) (html : string) : string :=
  match content with
  | [] => html
  | (k, v) :: rest =>
      preview_sections rest
        (html ++ "<section><h2>" ++ k ++ "</h2><p>" ++ fstring v
              ++ "</p></section>")
  end.

Definition preview (dk : disk) (pack_name : string) : result string :=
    match load_pack dk pack_name with
    | Raise (FileNotFoundError _) => Raise (HTTPException 404 "Pack not found")
    | Raise e => Raise e
    | Ok content =>
        let html :=
          "<html><head><meta charset='utf-8'><title>Preview</title></head><body>" in
        let html := html ++ "<h1>" ++ title pack_name ++ " Preview</h1>" in
        kvs <- items content ;;
        let html := preview_sections kvs html in
        Ok (html ++ "</body></html>")
    end.

End Preview.

(* ================================================================= *)
(** ** Vocabulary of the statements *)

(** A pack value as the data model has it: every section text is a [str]. *)
Definition is_text (v : json) : bool :=
  match v with JStr _ => true | _ => false end.

Definition is_text_dict (d : dict) : bool :=
  forallb (fun kv => is_text (snd kv)) d.

(** The pack name has a backing document in the data directory. *)
Definition has_document (dk : disk) (pack_name : string) : bool :=
  match dir_lookup (pack_file pack_name) (data_dir dk) with
  | Some _ => true
  | None => false
  end.

(** A pack the search loop gets past: it has no backing document, or its
    document is an object whose values are all texts. *)
Definition searchable (dk : disk) (p : string) : bool :=
  match load_pack dk p with
  | Raise (FileNotFoundError _) => true
  | Ok (JObj d) => is_text_dict d
  | _ => false
  end.

(** A section as search sees it: pack name, section key, section text. *)
Definition section : Type := (string * string * string)%type.

(** The text sections of one object, in document order. *)
Definition text_entries (p : string) (d : dict) : list section :=
  flat_map (fun kv => match snd kv with
                      | JStr text => [(p, fst kv, text)]
                      | _ => []
                      end) d.

(** The sections of the successfully loaded packs among [packs], pack by
    pack in scope order. *)
Definition pack_sections (dk : disk) (p : string) : list section :=
  match load_pack dk p with
  | Ok (JObj d) => text_entries p d
  | _ => []
  end.

Definition scope_sections (dk : disk) (packs : list string) : list section :=
  flat_map (pack_sections dk) packs.

(** The match test in the words of the specification: the normalized
    query against lowercase key, a blank, lowercase text. *)
Definition section_matches (nq : string) (s : section) : bool :=
  let '(_, key, text) := s in
  contains nq (lower key ++ " " ++ lower text).

(** The result record emitted for a matching section. *)
Definition hit_of (s : section) : Hit.t :=
  let '(p, key, text) := s in
  Hit.Make p key (slice_to 300 text).

(** The message of the error contains [name]. *)
Definition mentions (name : string) {A : Type} (r : result A) : bool :=
  match r with
  | Raise (HTTPException _ detail) => contains name detail
  | Raise (FileNotFoundError message) => contains name message
  | _ => false
  end.

(* ----------------------------------------------------------------- *)
(** *** Sample disks *)

Definition sales_doc : json :=
  JObj [("opening", JStr "Build rapport fast.");
        ("Closing", JStr "Ask for the ORDER.")].

Definition nlp_doc : json :=
  JObj [("anchoring", JStr "Link a state to a trigger.")].

(** Two good packs, and a schema file. *)
Definition sample_disk : disk :=
  Disk [("sales.json", Document sales_doc);
        ("notes.txt", Malformed);
        ("nlp.json", Document nlp_doc)]
       (Some (Document (JObj [("version", JStr "1")]))).

(** One pack whose text is not JSON, and a schema file of the same kind. *)
Definition broken_disk : disk :=
  Disk [("sales.json", Document sales_doc);
        ("bad.json", Malformed)]
       (Some Malformed).

(** A directory whose first entry is listed as "Archive" but has no
    backing document "archive.json", next to one good pack. *)
Definition mixed_disk : disk :=
  Disk [("Archive.json", Document nlp_doc);
        ("sales.json", Document sales_doc)]
       None.

(** An empty data directory and no schema file. *)
Definition empty_disk : disk := Disk [] None.

(** A text of 310 characters, and a pack that holds it. *)
Definition long_text : string :=
  String.concat "" (repeat "Pace, then lead. " 18) ++ "Stop.".

Definition long_disk : disk :=
  Disk [("hypnosis.json", Document (JObj [("induction", JStr long_text)]))] None.

(** The pack's load did not return a value. *)
Definition load_failed (dk : disk) (p : string) : bool :=
  match load_pack dk p with
  | Ok _ => false
  | Raise _ => true
  end.

(** The catalog of the worked examples: one pack with one section. *)
Definition example_disk : disk :=
  Disk [("sales.json", Document (JObj [("opening", JStr "Build rapport fast.")]))]
       None.

(** Stand-ins for the two built-ins [preview] is parameterised by, for
    running it on requests that never reach them. *)
Definition title_stub (s : string) : string := s.
Definition format_stub (v : json) : string :=
  match v with JStr s => s | _ => EmptyString end.

(* ----------------------------------------------------------------- *)
(** *** Vocabulary of the further properties *)

(** The file names of the data directory. *)
Definition dir_names (dk : disk) : list string := map fst (data_dir dk).

(** The markup the preview loop appends for one entry. *)
Definition section_html (format_value : json -> string) (kv : string * json)
  : string :=
  "<section><h2>" ++ fst kv ++ "</h2><p>" ++ fstring format_value (snd kv)
    ++ "</p></section>".

(** The opening of every preview document, up to the heading. *)
Definition preview_head : string :=
  "<html><head><meta charset='utf-8'><title>Preview</title></head><body>".

(** The pieces of a list of strings put end to end. *)
Fixpoint join (pieces : list string) : string :=
  match pieces with
  | [] => EmptyString
  | x :: rest => x ++ join rest
  end.

(** A pack whose document is a JSON array, not a mapping. *)
Definition array_disk : disk :=
  Disk [("tips.json", Document (JArr [JStr "Smile."; JStr "Listen."]))] None.

(* ================================================================= *)
(** ** Facts about strings *)

Example lower_mixed : lower "Build RAPPORT fast." = "build rapport fast.".
Proof. reflexivity. Qed.

Example strip_blanks : strip "  Rapport  " = "Rapport".
Proof. reflexivity. Qed.

Example contains_inside : contains "rap" "opening build rapport" = true.
Proof. reflexivity. Qed.

Example split_head_json : split_head ".json" "sales.json" = "sales".
Proof. reflexivity. Qed.

Example endswith_backup : endswith ".json" "sales.json.bak" = false.
Proof. reflexivity. Qed.

Lemma lower_char_idem c : lower_char (lower_char c) = lower_char c.
Proof. destruct c as [[] [] [] [] [] [] [] []]; reflexivity. Qed.

Lemma isspace_lower_char c : isspace (lower_char c) = isspace c.
Proof. destruct c as [[] [] [] [] [] [] [] []]; reflexivity. Qed.

Lemma lower_idem s : lower (lower s) = lower s.
Proof.
  induction s as [|c s IH]; simpl; [reflexivity|].
  now rewrite lower_char_idem, IH.
Qed.

Lemma append_assoc (a b c : string) : (a ++ b) ++ c = a ++ b ++ c.
Proof. induction a as [|x a IH]; simpl; [reflexivity | now rewrite IH]. Qed.

Lemma lower_app s t : lower (s ++ t) = lower s ++ lower t.
Proof. induction s as [|c s IH]; simpl; [reflexivity | now rewrite IH]. Qed.

Lemma lstrip_lower s : lstrip (lower s) = lower (lstrip s).
Proof.
  induction s as [|c s IH]; simpl; [reflexivity|].
  rewrite isspace_lower_char. destruct (isspace c); [exact IH | reflexivity].
Qed.

Lemma rstrip_lower s : rstrip (lower s) = lower (rstrip s).
Proof.
  induction s as [|c s IH]; simpl; [reflexivity|].
  rewrite IH, isspace_lower_char.
  destruct (rstrip s); simpl; [destruct (isspace c)|]; reflexivity.
Qed.

(** Trimming and lowercasing commute, so "trim of the lowercase" and the
    code's "lowercase of the trim" are one normal form. *)
Lemma strip_lower s : strip (lower s) = lower (strip s).
Proof. unfold strip. now rewrite lstrip_lower, rstrip_lower. Qed.

Lemma rstrip_all_space s : all_space s = true -> rstrip s = "".
Proof.
  induction s as [|c s IH]; simpl; [reflexivity|].
  intros H. apply andb_true_iff in H as [Hc Hs].
  now rewrite (IH Hs), Hc.
Qed.

Lemma lstrip_all_space s : all_space s = true -> lstrip s = "".
Proof.
  induction s as [|c s IH]; simpl; [reflexivity|].
  intros H. apply andb_true_iff in H as [Hc Hs].
  rewrite Hc. now apply IH.
Qed.

Lemma strip_all_space s : all_space s = true -> strip s = "".
Proof. intros H. unfold strip. now rewrite (lstrip_all_space _ H). Qed.

Lemma startswith_spec p s :
  startswith p s = true <-> exists post, s = p ++ post.
Proof.
  revert s; induction p as [|a p IH]; intros s; simpl.
  - split; [intros _; now exists s | reflexivity].
  - destruct s as [|b s].
    + split; [discriminate | intros [post H]; discriminate].
    + rewrite andb_true_iff, Ascii.eqb_eq, IH. split.
      * intros [-> [post ->]]. now exists post.
      * intros [post H]. injection H as -> ->. split; [reflexivity | now exists post].
Qed.

Lemma contains_spec q s : contains q s = true <-> substring_of q s.
Proof.
  unfold substring_of. induction s as [|c s IH]; simpl.
  - rewrite orb_false_r, startswith_spec. split.
    + intros [post H]. now exists "", post.
    + intros [[|a pre] [post H]]; [now exists post | discriminate].
  - rewrite orb_true_iff, startswith_spec, IH. split.
    + intros [[post H] | [pre [post H]]].
      * now exists "", post.
      * exists (String c pre), post. simpl. now rewrite H.
    + intros [[|a pre] [post H]].
      * left. now exists post.
      * right. simpl in H. injection H as _ H. now exists pre, post.
Qed.

Lemma contains_empty s : contains "" s = true.
Proof. destruct s; reflexivity. Qed.

Lemma slice_to_length n s : String.length (slice_to n s) = Nat.min n (String.length s).
Proof.
  revert s; induction n as [|n IH]; intros [|c s]; simpl; try reflexivity.
  now rewrite IH.
Qed.

Lemma slice_to_prefix n s : exists rest, s = slice_to n s ++ rest.
Proof.
  revert s; induction n as [|n IH]; intros s.
  - exists s. now destruct s.
  - destruct s as [|c s]; [now exists "" |].
    destruct (IH s) as [rest H]. exists rest. simpl. now rewrite <- H.
Qed.

Lemma slice_to_all n s : String.length s <= n -> slice_to n s = s.
Proof.
  revert s; induction n as [|n IH]; intros [|c s]; simpl; intros H;
    try reflexivity; [lia|].
  rewrite IH; [reflexivity | lia].
Qed.

(* ================================================================= *)
(** ** Facts about dictionaries and the pack store *)

Lemma in_list_In k ks : in_list k ks = true <-> In k ks.
Proof.
  unfold in_list. rewrite existsb_exists. split.
  - intros [x [Hx He]]. apply String.eqb_eq in He. now subst.
  - intros H. exists k. split; [exact H | apply String.eqb_refl].
Qed.

Lemma dict_get_filter k ks (d : dict) :
  dict_get k (filter (fun kv => in_list (fst kv) ks) d)
  = if in_list k ks then dict_get k d else None.
Proof.
  induction d as [|[k' v] d IH]; simpl.
  - now destruct (in_list k ks).
  - destruct (in_list k' ks) eqn:Hk'; simpl.
    + destruct (String.eqb k k') eqn:He.
      * apply String.eqb_eq in He. subst. now rewrite Hk'.
      * exact IH.
    + rewrite IH. destruct (String.eqb k k') eqn:He; [|reflexivity].
      apply String.eqb_eq in He. subst. now rewrite Hk'.
Qed.

Lemma dict_keys_filter k ks (d : dict) :
  In k (dict_keys (filter (fun kv => in_list (fst kv) ks) d))
  <-> In k ks /\ In k (dict_keys d).
Proof.
  unfold dict_keys. rewrite !in_map_iff. split.
  - intros [[k' v] [Hk Hin]]. simpl in Hk. subst.
    apply filter_In in Hin as [Hin Hf]. simpl in Hf.
    split; [now apply in_list_In | now exists (k, v)].
  - intros [Hks [[k' v] [Hk Hin]]]. simpl in Hk. subst.
    exists (k, v). split; [reflexivity|].
    apply filter_In. split; [exact Hin | now apply in_list_In].
Qed.

Lemma dict_wf_filter (f : string * json -> bool) (d : dict) :
  dict_wf d -> dict_wf (filter f d).
Proof.
  unfold dict_wf, dict_keys. induction d as [|kv d IH]; simpl; intros H.
  - exact H.
  - inversion H as [|? ? Hnotin Hnodup]; subst.
    destruct (f kv); simpl; [constructor|]; auto.
    intros Hin. apply Hnotin. apply in_map_iff in Hin as [kv' [He Hin]].
    apply filter_In in Hin as [Hin _]. apply in_map_iff. now exists kv'.
Qed.

(** In a well-formed dictionary a key has one value. *)
Lemma dict_wf_functional (d : dict) k v v' :
  dict_wf d -> In (k, v) d -> In (k, v') d -> v = v'.
Proof.
  unfold dict_wf, dict_keys. induction d as [|[k0 v0] d IH]; simpl; intros H H1 H2.
  - contradiction.
  - inversion H as [|? ? Hnotin Hnodup]; subst.
    destruct H1 as [H1|H1], H2 as [H2|H2].
    + congruence.
    + injection H1 as -> ->. exfalso. apply Hnotin.
      apply in_map_iff. now exists (k, v').
    + injection H2 as -> ->. exfalso. apply Hnotin.
      apply in_map_iff. now exists (k, v).
    + now apply IH.
Qed.

Lemma pack_file_lower p : pack_file (lower p) = pack_file p.
Proof. unfold pack_file. now rewrite lower_idem. Qed.

Lemma load_pack_document dk p j :
  dir_lookup (pack_file p) (data_dir dk) = Some (Document j) ->
  load_pack dk p = Ok j.
Proof. unfold load_pack. now intros ->. Qed.

Lemma load_pack_absent dk p :
  has_document dk p = false ->
  load_pack dk p = Raise (FileNotFoundError ("Pack not found: " ++ p)).
Proof.
  unfold has_document, load_pack.
  now destruct (dir_lookup (pack_file p) (data_dir dk)).
Qed.

(** [load_pack] raises nothing but the two exceptions of its body. *)
Lemma load_pack_cases dk p :
  (has_document dk p = false /\
   load_pack dk p = Raise (FileNotFoundError ("Pack not found: " ++ p)))
  \/ (has_document dk p = true /\ load_pack dk p = Raise JSONDecodeError)
  \/ (has_document dk p = true /\ exists j, load_pack dk p = Ok j).
Proof.
  unfold has_document, load_pack.
  destruct (dir_lookup (pack_file p) (data_dir dk)) as [[|j]|]; simpl; eauto.
Qed.

Lemma has_document_lower dk p : has_document dk (lower p) = has_document dk p.
Proof. unfold has_document. now rewrite pack_file_lower. Qed.

Lemma or_empty_spec (o : option dict) :
  or_empty o = match o with Some d => d | None => [] end.
Proof. now destruct o as [[|e d]|]. Qed.

(* ================================================================= *)
(** ** Section filter *)

(** C1. For every loaded pack (a mapping from section keys to values) and
    every optional list of requested keys: with the list absent or empty
    [filter_sections] returns the pack unchanged; otherwise it returns,
    without error, exactly the entries of the pack whose key is in the
    list, that is, the pack restricted to the requested keys it has.  A
    requested key the pack lacks yields no entry. *)
Theorem filter_sections_restriction (d : dict) (keys : option (list string)) :
  (keys = None \/ keys = Some [] ->
     filter_sections (JObj d) keys = Ok (JObj d))
  /\ (forall ks, keys = Some ks -> ks <> [] ->
        exists d',
          filter_sections (JObj d) keys = Ok (JObj d')
          /\ (forall k v, In (k, v) d' <-> In (k, v) d /\ In k ks)
          /\ (forall k, In k (dict_keys d') <-> In k ks /\ In k (dict_keys d))
          /\ (forall k, dict_get k d'
                        = if in_list k ks then dict_get k d else None)
          /\ (forall k, In k ks -> dict_get k d = None -> dict_get k d' = None)
          /\ (dict_wf d -> dict_wf d')).
Proof.
  split.
  - intros [-> | ->]; reflexivity.
  - intros ks -> Hne.
    exists (filter (fun kv => in_list (fst kv) ks) d).
    split; [destruct ks; [contradiction | reflexivity]|].
    split; [|split; [|split; [|split]]].
    + intros k v. rewrite filter_In. simpl. now rewrite in_list_In.
    + intros k. apply dict_keys_filter.
    + intros k. apply dict_get_filter.
    + intros k _ Hnone. rewrite dict_get_filter, Hnone.
      now destruct (in_list k ks).
    + apply dict_wf_filter.
Qed.

Lemma filter_sections_restriction_witness :
  exists d',
    filter_sections sales_doc (Some ["Closing"; "absent"]) = Ok (JObj d')
    /\ dict_get "Closing" d' = Some (JStr "Ask for the ORDER.")
    /\ dict_get "opening" d' = None
    /\ dict_get "absent" d' = None.
Proof.
  destruct (filter_sections_restriction
              [("opening", JStr "Build rapport fast.");
               ("Closing", JStr "Ask for the ORDER.")]
              (Some ["Closing"; "absent"])) as [_ H].
  destruct (H ["Closing"; "absent"] eq_refl ltac:(discriminate))
    as [d' [Hok [_ [_ [Hget _]]]]].
  exists d'. split; [exact Hok|].
  repeat split; rewrite Hget; reflexivity.
Defined.

(* ================================================================= *)
(** ** Search engine *)

Arguments slice_to : simpl never.
Arguments text_entries : simpl never.
Arguments scope_sections : simpl never.

Lemma text_entries_cons_text p sec text (d : dict) :
  text_entries p ((sec, JStr text) :: d) = (p, sec, text) :: text_entries p d.
Proof. reflexivity. Qed.

Lemma in_text_entries p (d : dict) s :
  In s (text_entries p d)
  <-> exists sec text, s = (p, sec, text) /\ In (sec, JStr text) d.
Proof.
  unfold text_entries. rewrite in_flat_map. split.
  - intros [[sec v] [Hin Hs]]. destruct v; simpl in Hs; try contradiction.
    destruct Hs as [<-|[]]. now exists sec, s0.
  - intros [sec [text [-> Hin]]]. exists (sec, JStr text). simpl. auto.
Qed.

Lemma in_scope_sections dk packs s :
  In s (scope_sections dk packs)
  <-> exists p d sec text,
        s = (p, sec, text) /\ In p packs
        /\ load_pack dk p = Ok (JObj d) /\ In (sec, JStr text) d.
Proof.
  unfold scope_sections, pack_sections. rewrite in_flat_map. split.
  - intros [p [Hp Hin]].
    destruct (load_pack dk p) as [[| | | | |d]|] eqn:Hl; try contradiction.
    apply in_text_entries in Hin as [sec [text [-> Hin]]].
    now exists p, d, sec, text.
  - intros [p [d [sec [text [-> [Hp [Hl Hin]]]]]]].
    exists p. split; [exact Hp|]. rewrite Hl.
    apply in_text_entries. now exists sec, text.
Qed.

(** The inner loop appends the hits of the matching sections, in order,
    when every value is a text ... *)
Lemma search_sections_spec q p (d : dict) : forall acc,
  is_text_dict d = true ->
  search_sections q p d acc
  = Ok (acc ++ map hit_of (filter (section_matches q) (text_entries p d)))%list.
Proof.
  induction d as [|[sec v] d IH]; intros acc H.
  - simpl. now rewrite app_nil_r.
  - simpl in H. apply andb_true_iff in H as [Hv Hd].
    destruct v; try discriminate. rewrite text_entries_cons_text. simpl.
    destruct (contains q _); simpl.
    + rewrite (IH _ Hd), <- app_assoc. reflexivity.
    + exact (IH _ Hd).
Qed.

(** ... and raises as soon as one is not. *)
Lemma search_sections_ok q p (d : dict) : forall acc r,
  search_sections q p d acc = Ok r -> is_text_dict d = true.
Proof.
  induction d as [|[sec v] d IH]; intros acc r H; simpl in *.
  - reflexivity.
  - destruct v; try discriminate. simpl.
    destruct (contains q _); eapply IH; exact H.
Qed.

Lemma search_packs_spec dk q packs : forall acc,
  forallb (searchable dk) packs = true ->
  search_packs dk q packs acc
  = Ok (acc ++ map hit_of
                 (filter (section_matches q) (scope_sections dk packs)))%list.
Proof.
  induction packs as [|p packs IH]; intros acc H.
  - simpl. now rewrite app_nil_r.
  - simpl in H. apply andb_true_iff in H as [Hp Hrest].
    change (scope_sections dk (p :: packs))
      with (pack_sections dk p ++ scope_sections dk packs)%list.
    simpl.
    rewrite filter_app, map_app.
    unfold searchable in Hp. unfold pack_sections at 1.
    destruct (load_pack dk p) as [[| | | | |d]|[]]; try discriminate; simpl.
    + rewrite (search_sections_spec _ _ _ _ Hp). simpl.
      rewrite (IH _ Hrest), <- app_assoc. reflexivity.
    + exact (IH _ Hrest).
Qed.

Lemma search_packs_ok dk q packs : forall acc r,
  search_packs dk q packs acc = Ok r ->
  forallb (searchable dk) packs = true.
Proof.
  induction packs as [|p packs IH]; intros acc r H; simpl in *.
  - reflexivity.
  - unfold searchable at 1.
    destruct (load_pack dk p) as [[| | | | |d]|[]]; try discriminate; simpl in *.
    + destruct (search_sections q p d acc) as [acc'|] eqn:Hs; [|discriminate].
      simpl in H. rewrite (search_sections_ok _ _ _ _ _ Hs). simpl.
      eapply IH; exact H.
    + eapply IH; exact H.
Qed.

(** The endpoint as a whole on a searchable scope. *)
Lemma search_pack_spec dk req pack :
  forallb (searchable dk) (search_scope dk pack) = true ->
  search_pack dk req pack
  = Ok (SearchResponse.Make
          (lower (strip (SearchRequest.q req)))
          (map hit_of
               (filter (section_matches (lower (strip (SearchRequest.q req))))
                       (scope_sections dk (search_scope dk pack))))).
Proof.
  intros H. unfold search_pack. now rewrite (search_packs_spec _ _ _ _ H).
Qed.

(** [search_pack] answers exactly when its scope is searchable. *)
Lemma search_pack_ok_iff dk req pack :
  (exists resp, search_pack dk req pack = Ok resp)
  <-> forallb (searchable dk) (search_scope dk pack) = true.
Proof.
  split.
  - intros [resp H]. unfold search_pack in H.
    destruct (search_packs dk (lower (strip (SearchRequest.q req)))
                (search_scope dk pack) []) as [r|] eqn:Hs; [|discriminate].
    eapply search_packs_ok; exact Hs.
  - intros H. rewrite (search_pack_spec _ _ _ H). eauto.
Qed.

(** Membership in the result list of a search that answered. *)
Lemma search_pack_results dk req pack resp :
  search_pack dk req pack = Ok resp ->
  SearchResponse.query resp = lower (strip (SearchRequest.q req))
  /\ forall h,
       In h (SearchResponse.results resp)
       <-> exists p d sec text,
             h = Hit.Make p sec (slice_to 300 text)
             /\ In p (search_scope dk pack)
             /\ load_pack dk p = Ok (JObj d)
             /\ In (sec, JStr text) d
             /\ contains (lower (strip (SearchRequest.q req)))
                         (lower sec ++ " " ++ lower text) = true.
Proof.
  intros H.
  assert (Hs : forallb (searchable dk) (search_scope dk pack) = true)
    by (apply (search_pack_ok_iff dk req pack); eauto).
  rewrite (search_pack_spec _ req _ Hs) in H. injection H as <-. simpl.
  split; [reflexivity|]. intros h. rewrite in_map_iff. split.
  - intros [s [<- Hin]]. apply filter_In in Hin as [Hin Hm].
    apply in_scope_sections in Hin
      as [p [d [sec [text [-> [Hp [Hl Hd]]]]]]].
    now exists p, d, sec, text.
  - intros [p [d [sec [text [-> [Hp [Hl [Hd Hm]]]]]]]].
    exists (p, sec, text). split; [reflexivity|].
    apply filter_In. split; [|exact Hm].
    apply in_scope_sections. now exists p, d, sec, text.
Qed.

Lemma slice_to_substring n s : slice_to n s = substring 0 n s.
Proof.
  revert s; induction n as [|n IH]; intros [|c s]; try reflexivity.
  change (slice_to (S n) (String c s)) with (String c (slice_to n s)).
  simpl. now rewrite IH.
Qed.

Lemma searchable_loaded dk packs p d :
  forallb (searchable dk) packs = true ->
  In p packs -> load_pack dk p = Ok (JObj d) -> is_text_dict d = true.
Proof.
  intros H Hp Hl. rewrite forallb_forall in H. specialize (H p Hp).
  unfold searchable in H. now rewrite Hl in H.
Qed.

Lemma filter_blank_query (l : list section) :
  filter (section_matches "") l = l.
Proof.
  induction l as [|[[p sec] text] l IH]; [reflexivity|].
  simpl. now rewrite contains_empty, IH.
Qed.

Lemma map_flat_map_sections (f : section -> Hit.t) (g : string -> list section) l :
  map f (flat_map g l) = flat_map (fun p => map f (g p)) l.
Proof.
  induction l as [|p l IH]; simpl; [reflexivity|].
  now rewrite map_app, IH.
Qed.

Lemma text_dict_one_hit_each p (d : dict) :
  is_text_dict d = true ->
  Forall2 (fun kv h => exists text,
             snd kv = JStr text
             /\ h = Hit.Make p (fst kv) (slice_to 300 text))
          d (map hit_of (text_entries p d)).
Proof.
  induction d as [|[sec v] d IH]; intros H.
  - constructor.
  - simpl in H. apply andb_true_iff in H as [Hv Hd].
    destruct v; try discriminate. rewrite text_entries_cons_text. simpl.
    constructor; [now exists s | now apply IH].
Qed.

(** C2. For every query [q] and every section [(sec, text)] of a loaded
    pack in the search scope, the answer of /search holds the result of
    that section exactly when trim(lowercase(q)) is a substring of
    lowercase(sec) + " " + lowercase(text).  The result carries the key as
    stored, not its lowercase; and two queries that differ only in case
    get the same answer.  The endpoint does answer whenever each pack in
    scope is absent or loads as a mapping of texts. *)
Theorem search_includes_iff_match dk req pack :
  (forall req',
     lower (SearchRequest.q req') = lower (SearchRequest.q req) ->
     search_pack dk req' pack = search_pack dk req pack)
  /\ (forallb (searchable dk) (search_scope dk pack) = true ->
      exists resp, search_pack dk req pack = Ok resp)
  /\ (forall resp, search_pack dk req pack = Ok resp ->
      SearchResponse.query resp = strip (lower (SearchRequest.q req))
      /\ forall p d sec text,
           In p (search_scope dk pack) ->
           load_pack dk p = Ok (JObj d) ->
           dict_wf d ->
           In (sec, JStr text) d ->
           (In (Hit.Make p sec (slice_to 300 text)) (SearchResponse.results resp)
            <-> substring_of (strip (lower (SearchRequest.q req)))
                             (lower sec ++ " " ++ lower text))
           /\ (forall h, In h (SearchResponse.results resp) ->
                 Hit.pack h = p -> Hit.section h = sec ->
                 h = Hit.Make p sec (slice_to 300 text))).
Proof.
  split; [|split].
  - intros req' Hq. unfold search_pack.
    rewrite <- !strip_lower, Hq. reflexivity.
  - apply search_pack_ok_iff.
  - intros resp Hresp. rewrite strip_lower.
    destruct (search_pack_results _ _ _ _ Hresp) as [Hquery Hres].
    split; [exact Hquery|].
    intros p d sec text Hp Hl Hwf Hin.
    assert (Hsame : forall h, In h (SearchResponse.results resp) ->
              Hit.pack h = p -> Hit.section h = sec ->
              h = Hit.Make p sec (slice_to 300 text)
              /\ contains (lower (strip (SearchRequest.q req)))
                          (lower sec ++ " " ++ lower text) = true).
    { intros h Hh Hhp Hhs.
      apply Hres in Hh as [p' [d' [sec' [text' [-> [_ [Hl' [Hin' Hm]]]]]]]].
      simpl in Hhp, Hhs. subst p' sec'.
      rewrite Hl in Hl'. injection Hl' as <-.
      assert (He : JStr text' = JStr text)
        by (eapply dict_wf_functional; eauto).
      injection He as ->. now split. }
    split; [split|].
    + intros Hh. apply contains_spec.
      now destruct (Hsame _ Hh eq_refl eq_refl).
    + intros Hsub. apply contains_spec in Hsub.
      apply Hres. now exists p, d, sec, text.
    + intros h Hh Hhp Hhs. now destruct (Hsame h Hh Hhp Hhs).
Qed.

Lemma search_includes_iff_match_witness :
  exists resp,
    search_pack sample_disk (SearchRequest.Make "  ask FOR ") None = Ok resp
    /\ SearchResponse.query resp = "ask for"
    /\ In (Hit.Make "sales" "Closing" "Ask for the ORDER.")
          (SearchResponse.results resp)
    /\ ~ In (Hit.Make "sales" "opening" "Build rapport fast.")
            (SearchResponse.results resp).
Proof.
  destruct (search_includes_iff_match sample_disk
              (SearchRequest.Make "  ask FOR ") None) as [_ [Hret H]].
  destruct (Hret eq_refl) as [resp Hok].
  destruct (H resp Hok) as [Hquery Hiff].
  exists resp. split; [exact Hok|]. split; [exact Hquery|].
  set (d := [("opening", JStr "Build rapport fast.");
             ("Closing", JStr "Ask for the ORDER.")]).
  assert (Hwf : dict_wf d).
  { repeat constructor; simpl; intuition discriminate. }
  split.
  - destruct (Hiff "sales" d "Closing" "Ask for the ORDER."
                ltac:(simpl; auto) eq_refl Hwf ltac:(simpl; auto))
      as [[_ Hback] _].
    apply Hback, contains_spec. reflexivity.
  - destruct (Hiff "sales" d "opening" "Build rapport fast."
                ltac:(simpl; auto) eq_refl Hwf ltac:(simpl; auto))
      as [[Hforth _] _].
    intros Hin. pose proof (proj2 (contains_spec _ _) (Hforth Hin)) as Hc.
    discriminate Hc.
Defined.

(** C3. Every search result's excerpt has at most 300 characters.  It is
    cut from the text of the section the result names: the first 300
    characters of that text when the text is longer, the whole text
    otherwise. *)
Theorem search_excerpt_bound dk req pack resp :
  search_pack dk req pack = Ok resp ->
  forall h, In h (SearchResponse.results resp) ->
    String.length (Hit.excerpt h) <= 300
    /\ exists d text,
         load_pack dk (Hit.pack h) = Ok (JObj d)
         /\ In (Hit.section h, JStr text) d
         /\ (300 < String.length text ->
               Hit.excerpt h = substring 0 300 text
               /\ String.length (Hit.excerpt h) = 300
               /\ exists rest, text = Hit.excerpt h ++ rest)
         /\ (String.length text <= 300 -> Hit.excerpt h = text).
Proof.
  intros Hresp h Hh.
  destruct (search_pack_results _ _ _ _ Hresp) as [_ Hres].
  apply Hres in Hh as [p [d [sec [text [-> [_ [Hl [Hin _]]]]]]]]. simpl.
  split; [rewrite slice_to_length; lia|].
  exists d, text. repeat split; auto.
  - apply slice_to_substring.
  - rewrite slice_to_length. lia.
  - apply slice_to_prefix.
  - apply slice_to_all.
Qed.

Lemma search_excerpt_bound_witness :
  String.length long_text = 311
  /\ (let h := Hit.Make "Hypnosis" "induction" (substring 0 300 long_text) in
      String.length (Hit.excerpt h) <= 300
      /\ exists d text,
           load_pack long_disk (Hit.pack h) = Ok (JObj d)
           /\ In (Hit.section h, JStr text) d
           /\ (300 < String.length text ->
                 Hit.excerpt h = substring 0 300 text
                 /\ String.length (Hit.excerpt h) = 300
                 /\ exists rest, text = Hit.excerpt h ++ rest)
           /\ (String.length text <= 300 -> Hit.excerpt h = text)).
Proof.
  split; [reflexivity|].
  apply (search_excerpt_bound long_disk (SearchRequest.Make "LEAD")
           (Some "Hypnosis") _ eq_refl).
  simpl. left. reflexivity.
Defined.

(** C10. A query made of white space only (the empty query included)
    normalizes to the empty string, which is a substring of every string;
    so the answer of /search holds exactly one result per section of
    every loaded pack in scope, pack by pack and section by section.  The
    endpoint does answer whenever each pack in scope is absent or loads
    as a mapping of texts. *)
Theorem blank_query_returns_every_section dk req pack :
  all_space (SearchRequest.q req) = true ->
  lower (strip (SearchRequest.q req)) = ""
  /\ (forall s, substring_of "" s)
  /\ (forallb (searchable dk) (search_scope dk pack) = true ->
      exists resp, search_pack dk req pack = Ok resp)
  /\ (forall resp, search_pack dk req pack = Ok resp ->
      SearchResponse.query resp = ""
      /\ SearchResponse.results resp
         = flat_map (fun p => map hit_of (pack_sections dk p))
                    (search_scope dk pack)
      /\ forall p, In p (search_scope dk pack) ->
           (has_document dk p = false -> pack_sections dk p = [])
           /\ (forall d, load_pack dk p = Ok (JObj d) ->
                 Forall2 (fun kv h => exists text,
                            snd kv = JStr text
                            /\ h = Hit.Make p (fst kv) (slice_to 300 text))
                         d (map hit_of (pack_sections dk p)))).
Proof.
  intros Hq.
  assert (Hnq : lower (strip (SearchRequest.q req)) = "")
    by now rewrite (strip_all_space _ Hq).
  split; [exact Hnq|]. split; [|split].
  - intros s. apply contains_spec, contains_empty.
  - apply search_pack_ok_iff.
  - intros resp Hresp.
    assert (Hs : forallb (searchable dk) (search_scope dk pack) = true)
      by (apply (search_pack_ok_iff dk req pack); eauto).
    rewrite (search_pack_spec _ _ _ Hs), Hnq, filter_blank_query in Hresp.
    injection Hresp as <-. simpl.
    split; [reflexivity|]. split.
    + unfold scope_sections. apply map_flat_map_sections.
    + intros p Hp. split.
      * intros Hdoc. unfold pack_sections.
        now rewrite (load_pack_absent _ _ Hdoc).
      * intros d Hl. unfold pack_sections. rewrite Hl.
        apply text_dict_one_hit_each.
        eapply searchable_loaded; eauto.
Qed.

Lemma blank_query_returns_every_section_witness :
  search_pack sample_disk (SearchRequest.Make "  ") None
  = Ok (SearchResponse.Make ""
          [Hit.Make "sales" "opening" "Build rapport fast.";
           Hit.Make "sales" "Closing" "Ask for the ORDER.";
           Hit.Make "nlp" "anchoring" "Link a state to a trigger."]).
Proof.
  destruct (blank_query_returns_every_section sample_disk
              (SearchRequest.Make "  ") None eq_refl)
    as [_ [_ [Hret H]]].
  destruct (Hret eq_refl) as [resp Hok].
  destruct (H resp Hok) as [Hquery [Hres _]].
  rewrite Hok. destruct resp as [query results]. simpl in Hquery, Hres.
  rewrite Hquery, Hres. reflexivity.
Defined.

(* ----------------------------------------------------------------- *)
(** *** Packs whose load fails *)

Lemma search_sections_raises q p (d : dict) : forall acc e,
  search_sections q p d acc = Raise e -> e = AttributeError.
Proof.
  induction d as [|[sec v] d IH]; intros acc e H; simpl in H.
  - discriminate.
  - destruct v; try (now injection H as <-).
    destruct (contains q _); eapply IH; exact H.
Qed.

Lemma search_packs_raises dk q packs : forall acc e,
  search_packs dk q packs acc = Raise e ->
  e = JSONDecodeError \/ e = AttributeError.
Proof.
  induction packs as [|p packs IH]; intros acc e H; simpl in H.
  - discriminate.
  - destruct (load_pack_cases dk p) as [[_ Hl]|[[_ Hl]|[_ [j Hl]]]];
      rewrite Hl in H.
    + eapply IH; exact H.
    + injection H as <-. now left.
    + destruct j; simpl in H; try (injection H as <-; now right).
      destruct (search_sections q p entries acc) as [acc'|e'] eqn:Hs; simpl in H.
      * eapply IH; exact H.
      * injection H as <-. right. eapply search_sections_raises; exact Hs.
Qed.

(** Packs without a backing document can be struck from the scope. *)
Lemma search_packs_drop_absent dk q packs : forall acc,
  search_packs dk q packs acc
  = search_packs dk q (filter (has_document dk) packs) acc.
Proof.
  induction packs as [|p packs IH]; intros acc; simpl; [reflexivity|].
  destruct (load_pack_cases dk p) as [[Hd Hl]|[[Hd Hl]|[Hd [j Hl]]]];
    rewrite Hd; simpl; rewrite Hl.
  - apply IH.
  - reflexivity.
  - destruct (items j) as [kvs|]; simpl; [|reflexivity].
    destruct (search_sections q p kvs acc); simpl; [apply IH | reflexivity].
Qed.

(** The loop stops at the first scoped pack whose document does not
    parse: the packs before it are searched, and the decode error is what
    the caller gets. *)
Lemma search_packs_decode_error dk q before p after : forall acc,
  forallb (searchable dk) before = true ->
  load_pack dk p = Raise JSONDecodeError ->
  search_packs dk q (before ++ p :: after)%list acc = Raise JSONDecodeError.
Proof.
  induction before as [|p0 before IH]; intros acc Hs Hl.
  - simpl. now rewrite Hl.
  - simpl in Hs. apply andb_true_iff in Hs as [Hp0 Hs].
    cbn [app search_packs]. unfold searchable in Hp0.
    destruct (load_pack dk p0) as [[| | | | |d]|[]]; try discriminate.
    + cbn [items bind]. rewrite (search_sections_spec _ _ _ _ Hp0).
      cbn [bind]. now apply IH.
    + now apply IH.
Qed.

Lemma loaded_has_document dk p j :
  load_pack dk p = Ok j -> has_document dk p = true.
Proof.
  unfold load_pack, has_document.
  now destruct (dir_lookup (pack_file p) (data_dir dk)).
Qed.

(** C5, as the code has it.  /search skips every scoped pack that has no
    backing document: the answer is the one for the scope with those
    packs struck out, and the packs that remain are still searched, so
    that every matching section of a loaded pack in scope is among the
    results; the caller never sees a not-found error; and a search whose
    scope holds only absent packs, such as one scoped to a single absent
    pack, answers with an empty result list.  A document that exists but
    does not load as a mapping of texts is not skipped: the request then
    fails, and with the decode error when the first such document is one
    that does not parse. *)
Theorem search_skips_absent_packs dk req pack :
  let nq := lower (strip (SearchRequest.q req)) in
  let scope := search_scope dk pack in
  let present := filter (has_document dk) scope in
  search_pack dk req pack
  = (results <- search_packs dk nq present [] ;;
     Ok (SearchResponse.Make nq results))
  /\ (forall e, search_pack dk req pack = Raise e ->
        e = JSONDecodeError \/ e = AttributeError)
  /\ (forallb (fun p => negb (has_document dk p)) scope = true ->
        search_pack dk req pack = Ok (SearchResponse.Make nq []))
  /\ (forall p, truthy p = true -> has_document dk p = false ->
        search_pack dk req (Some p) = Ok (SearchResponse.Make nq []))
  /\ (forallb (searchable dk) present = true ->
        search_pack dk req pack
        = Ok (SearchResponse.Make nq
                (map hit_of
                     (filter (section_matches nq) (scope_sections dk present))))
        /\ forall p d sec text,
             In p scope ->
             load_pack dk p = Ok (JObj d) ->
             In (sec, JStr text) d ->
             contains nq (lower sec ++ " " ++ lower text) = true ->
             In (Hit.Make p sec (slice_to 300 text))
                (map hit_of
                     (filter (section_matches nq)
                             (scope_sections dk present))))
  /\ (forall p, In p scope -> searchable dk p = false ->
        has_document dk p = true
        /\ exists e, search_pack dk req pack = Raise e)
  /\ (forall before p after,
        scope = (before ++ p :: after)%list ->
        forallb (searchable dk) before = true ->
        dir_lookup (pack_file p) (data_dir dk) = Some Malformed ->
        search_pack dk req pack = Raise JSONDecodeError)
  /\ (forall p, truthy p = true ->
        dir_lookup (pack_file p) (data_dir dk) = Some Malformed ->
        search_pack dk req (Some p) = Raise JSONDecodeError).
Proof.
  intros nq scope present.
  assert (Hdrop : search_pack dk req pack
                  = (results <- search_packs dk nq present [] ;;
                     Ok (SearchResponse.Make nq results))).
  { unfold search_pack. fold nq. fold scope. subst present.
    now rewrite search_packs_drop_absent. }
  assert (Hempty : forall packs,
            forallb (fun p => negb (has_document dk p)) packs = true ->
            filter (has_document dk) packs = []).
  { induction packs as [|p packs IH]; simpl; [reflexivity|].
    intros H. apply andb_true_iff in H as [Hp Hrest].
    apply negb_true_iff in Hp. rewrite Hp. now apply IH. }
  assert (Hmal : forall p, dir_lookup (pack_file p) (data_dir dk) = Some Malformed ->
                   load_pack dk p = Raise JSONDecodeError).
  { intros p Hp. unfold load_pack. now rewrite Hp. }
  split; [exact Hdrop|].
  split; [|split; [|split; [|split; [|split; [|split]]]]].
  - intros e H. unfold search_pack in H. fold nq in H.
    destruct (search_packs dk nq (search_scope dk pack) []) as [r|e'] eqn:Hs;
      simpl in H; [discriminate|].
    injection H as <-. eapply search_packs_raises; exact Hs.
  - intros H. rewrite Hdrop. subst present. rewrite (Hempty _ H). reflexivity.
  - intros p Ht Hd. unfold search_pack. fold nq. simpl. rewrite Ht. simpl.
    now rewrite (load_pack_absent _ _ Hd).
  - intros Hs. split.
    + rewrite Hdrop, (search_packs_spec _ _ _ _ Hs). reflexivity.
    + intros p d sec text Hp Hl Hin Hm.
      apply in_map_iff. exists (p, sec, text). split; [reflexivity|].
      apply filter_In. split; [|exact Hm].
      apply in_scope_sections. exists p, d, sec, text.
      repeat split; auto. subst present. apply filter_In.
      split; [exact Hp | eapply loaded_has_document; exact Hl].
  - intros p Hp Hns. split.
    + unfold searchable in Hns.
      destruct (load_pack_cases dk p) as [[_ Hl]|[[Hd _]|[Hd _]]];
        [rewrite Hl in Hns; discriminate | exact Hd | exact Hd].
    + destruct (search_pack dk req pack) as [resp|e] eqn:H; [|eauto].
      assert (Hall : forallb (searchable dk) scope = true)
        by (apply (search_pack_ok_iff dk req pack); eauto).
      rewrite forallb_forall in Hall. rewrite (Hall p Hp) in Hns.
      discriminate.
  - intros before p after Hscope Hs Hp.
    unfold search_pack. fold nq. fold scope. rewrite Hscope.
    now rewrite (search_packs_decode_error _ _ _ _ _ _ Hs (Hmal _ Hp)).
  - intros p Ht Hp. unfold search_pack. fold nq. simpl. rewrite Ht. simpl.
    now rewrite (Hmal _ Hp).
Qed.

Lemma search_skips_absent_packs_witness :
  search_pack sample_disk (SearchRequest.Make "Rapport") (Some "ghost")
  = Ok (SearchResponse.Make "rapport" [])
  /\ search_pack mixed_disk (SearchRequest.Make "Rapport") None
     = Ok (SearchResponse.Make "rapport"
             [Hit.Make "sales" "opening" "Build rapport fast."])
  /\ search_pack broken_disk (SearchRequest.Make "Rapport") None
     = Raise JSONDecodeError
  /\ search_pack broken_disk (SearchRequest.Make "Rapport") (Some "Bad")
     = Raise JSONDecodeError.
Proof.
  split; [|split; [|split]].
  - destruct (search_skips_absent_packs sample_disk
                (SearchRequest.Make "Rapport") (Some "ghost"))
      as [_ [_ [_ [Hone _]]]].
    exact (Hone "ghost" eq_refl eq_refl).
  - destruct (search_skips_absent_packs mixed_disk
                (SearchRequest.Make "Rapport") None)
      as [_ [_ [_ [_ [Hrest _]]]]].
    exact (proj1 (Hrest eq_refl)).
  - destruct (search_skips_absent_packs broken_disk
                (SearchRequest.Make "Rapport") None)
      as [_ [_ [_ [_ [_ [_ [Hfirst _]]]]]]].
    exact (Hfirst ["sales"] "bad" [] eq_refl eq_refl eq_refl).
  - destruct (search_skips_absent_packs broken_disk
                (SearchRequest.Make "Rapport") (Some "Bad"))
      as [_ [_ [_ [_ [_ [_ [_ Hone]]]]]]].
    exact (Hone "Bad" eq_refl eq_refl).
Defined.

(** C5 as stated fails: a scoped pack whose document does not parse is a
    pack whose load fails, and /search surfaces that failure instead of
    skipping the pack -- also when the other scoped pack loads. *)
Lemma search_surfaces_decode_error :
  In "bad" (search_scope broken_disk None)
  /\ load_failed broken_disk "bad" = true
  /\ load_pack broken_disk "bad" = Raise JSONDecodeError
  /\ search_pack broken_disk (SearchRequest.Make "rapport") None
     = Raise JSONDecodeError
  /\ search_pack broken_disk (SearchRequest.Make "rapport") (Some "bad")
     = Raise JSONDecodeError
  /\ http_status
       (search_pack broken_disk (SearchRequest.Make "rapport") (Some "bad"))
     = 500.
Proof. repeat split; try reflexivity. simpl. auto. Qed.

(* ================================================================= *)
(** ** Pack endpoints *)

Lemma load_pack_lower_document dk p j :
  dir_lookup (pack_file p) (data_dir dk) = Some (Document j) ->
  load_pack dk (lower p) = Ok j.
Proof. intros H. apply load_pack_document. now rewrite pack_file_lower. Qed.

Lemma load_pack_lower_absent dk p :
  has_document dk p = false ->
  load_pack dk (lower p)
  = Raise (FileNotFoundError ("Pack not found: " ++ lower p)).
Proof. intros H. apply load_pack_absent. now rewrite has_document_lower. Qed.

Lemma filter_sections_dict_ok (d : dict) keys :
  exists d', filter_sections (JObj d) keys = Ok (JObj d').
Proof. destruct keys as [[|k ks]|]; simpl; eauto. Qed.

Lemma contains_middle pre q post : contains q (pre ++ q ++ post) = true.
Proof. apply contains_spec. now exists pre, post. Qed.

Lemma palette_get_unknown k :
  k <> "nlp" -> k <> "hypnosis" -> k <> "sales" ->
  palette_get k palettes = [].
Proof.
  intros H1 H2 H3. unfold palettes. simpl.
  apply String.eqb_neq in H1, H2, H3. now rewrite H1, H2, H3.
Qed.

(** C4, as the code has it.  For a pack name without a backing document
    all three endpoints fail with status 404.  The message of [get_pack]
    names the pack in lowercase, the message of [render_payload] names it
    as requested, and the message of the preview is the fixed text
    "Pack not found". *)
Theorem missing_pack_not_found dk req
    (title : string -> string) (format_value : json -> string) :
  has_document dk (PackRequest.pack req) = false ->
  let name := PackRequest.pack req in
  get_pack dk req
  = Raise (HTTPException 404 ("Pack '" ++ lower name ++ "' not found."))
  /\ mentions (lower name) (get_pack dk req) = true
  /\ render_payload dk req
     = Raise (HTTPException 404 ("Pack '" ++ name ++ "' not found."))
  /\ mentions name (render_payload dk req) = true
  /\ preview title format_value dk name
     = Raise (HTTPException 404 "Pack not found")
  /\ http_status (get_pack dk req) = 404
  /\ http_status (render_payload dk req) = 404
  /\ http_status (preview title format_value dk name) = 404.
Proof.
  intros Habsent name. subst name.
  assert (Hg : get_pack dk req
               = Raise (HTTPException 404
                          ("Pack '" ++ lower (PackRequest.pack req)
                                    ++ "' not found."))).
  { unfold get_pack. now rewrite (load_pack_lower_absent _ _ Habsent). }
  assert (Hr : render_payload dk req
               = Raise (HTTPException 404
                          ("Pack '" ++ PackRequest.pack req ++ "' not found."))).
  { unfold render_payload. now rewrite (load_pack_lower_absent _ _ Habsent). }
  assert (Hp : preview title format_value dk (PackRequest.pack req)
               = Raise (HTTPException 404 "Pack not found")).
  { unfold preview. now rewrite (load_pack_absent _ _ Habsent). }
  rewrite Hg, Hr, Hp. simpl.
  repeat split; apply (contains_middle "Pack '" _ "' not found.").
Qed.

Lemma missing_pack_not_found_witness :
  get_pack sample_disk (PackRequest.Make "Ghost" None (Some "json") None)
  = Raise (HTTPException 404 "Pack 'ghost' not found.")
  /\ render_payload sample_disk (PackRequest.Make "Ghost" None (Some "json") None)
     = Raise (HTTPException 404 "Pack 'Ghost' not found.")
  /\ preview title_stub format_stub sample_disk "Ghost"
     = Raise (HTTPException 404 "Pack not found").
Proof.
  destruct (missing_pack_not_found sample_disk
              (PackRequest.Make "Ghost" None (Some "json") None)
              title_stub format_stub eq_refl)
    as [Hg [_ [Hr [_ [Hp _]]]]].
  repeat split; assumption.
Defined.

(** C4 as stated fails: for the absent pack "Ghost" the preview answers
    with a message that does not hold the pack name in any spelling, and
    [get_pack] answers with the lowercase name, not the requested one. *)
Lemma preview_message_omits_pack_name :
  has_document empty_disk "Ghost" = false
  /\ (forall title format_value,
        preview title format_value empty_disk "Ghost"
        = Raise (HTTPException 404 "Pack not found")
        /\ mentions "Ghost" (preview title format_value empty_disk "Ghost") = false
        /\ mentions "ghost" (preview title format_value empty_disk "Ghost") = false)
  /\ get_pack empty_disk (PackRequest.Make "Ghost" None (Some "json") None)
     = Raise (HTTPException 404 "Pack 'ghost' not found.")
  /\ mentions "Ghost"
       (get_pack empty_disk (PackRequest.Make "Ghost" None (Some "json") None))
     = false.
Proof. repeat split; reflexivity. Qed.

(** C7. When the backing document of the requested pack parses as a
    mapping, [get_pack] without a sections filter answers with a content
    field that is that mapping: same keys, same values, same order. *)
Theorem get_pack_unfiltered_content dk req d :
  dir_lookup (pack_file (PackRequest.pack req)) (data_dir dk)
  = Some (Document (JObj d)) ->
  PackRequest.sections req = None \/ PackRequest.sections req = Some [] ->
  exists resp,
    get_pack dk req = Ok resp
    /\ PackResponse.content resp = JObj d
    /\ http_status (get_pack dk req) = 200.
Proof.
  intros Hdoc Hsec. unfold get_pack.
  rewrite (load_pack_lower_document _ _ _ Hdoc).
  destruct Hsec as [-> | ->]; simpl; eauto.
Qed.

Lemma get_pack_unfiltered_content_witness :
  exists resp,
    get_pack sample_disk (PackRequest.Make "sales" None (Some "json") None)
    = Ok resp
    /\ PackResponse.content resp = sales_doc
    /\ http_status
         (get_pack sample_disk (PackRequest.Make "sales" None (Some "json") None))
       = 200.
Proof.
  apply (get_pack_unfiltered_content sample_disk
           (PackRequest.Make "sales" None (Some "json") None)).
  - reflexivity.
  - left. reflexivity.
Defined.

(** C6. Whenever [render_payload] returns a payload -- and it does for
    every request whose pack document is a mapping -- the style block has
    the lowercase pack name as theme, the three-colour palette of that
    name when it is nlp, hypnosis or sales and the empty palette
    otherwise, and the two fonts Inter and Nunito; the options field is
    the request's options, or the empty record when there are none. *)
Theorem render_payload_style dk req :
  (forall d,
     dir_lookup (pack_file (PackRequest.pack req)) (data_dir dk)
     = Some (Document (JObj d)) ->
     exists payload, render_payload dk req = Ok payload)
  /\ (forall payload, render_payload dk req = Ok payload ->
        let name := lower (PackRequest.pack req) in
        let style := Payload.style payload in
        Style.theme style = name
        /\ (name = "nlp" ->
              Style.palette style
              = [("bg", "#ffffff"); ("primary", "#0B5F9A"); ("accent", "#2A9D7D")])
        /\ (name = "hypnosis" ->
              Style.palette style
              = [("bg", "#e8f2ff"); ("primary", "#4750B8"); ("accent", "#2AA199")])
        /\ (name = "sales" ->
              Style.palette style
              = [("bg", "#fff9e6"); ("primary", "#D9534F"); ("accent", "#E89E2D")])
        /\ (name <> "nlp" -> name <> "hypnosis" -> name <> "sales" ->
              Style.palette style = [])
        /\ Style.fonts style = ["Inter"; "Nunito"]
        /\ Payload.options payload
           = match PackRequest.options req with
             | Some o => o
             | None => []
             end).
Proof.
  split.
  - intros d Hdoc. unfold render_payload.
    rewrite (load_pack_lower_document _ _ _ Hdoc).
    destruct (filter_sections_dict_ok d (PackRequest.sections req)) as [d' ->].
    simpl. eauto.
  - intros payload H name style. unfold render_payload in H. fold name in H.
    destruct (load_pack dk name) as [content|[]]; try discriminate.
    destruct (filter_sections content (PackRequest.sections req));
      [|discriminate].
    simpl in H. injection H as <-. subst style. simpl.
    split; [reflexivity|].
    split; [intros ->; reflexivity|].
    split; [intros ->; reflexivity|].
    split; [intros ->; reflexivity|].
    split; [apply palette_get_unknown|].
    split; [reflexivity | apply or_empty_spec].
Qed.

Lemma render_payload_style_witness :
  exists payload,
    render_payload sample_disk
      (PackRequest.Make "Sales" (Some ["opening"]) (Some "poster") None)
    = Ok payload
    /\ Style.theme (Payload.style payload) = "sales"
    /\ Style.palette (Payload.style payload)
       = [("bg", "#fff9e6"); ("primary", "#D9534F"); ("accent", "#E89E2D")]
    /\ Payload.options payload = [].
Proof.
  pose (req := PackRequest.Make "Sales" (Some ["opening"]) (Some "poster") None).
  destruct (render_payload_style sample_disk req) as [Hret Hstyle].
  destruct (Hret _ eq_refl) as [payload Hok].
  exists payload. split; [exact Hok|].
  destruct (Hstyle payload Hok) as [Ht [_ [_ [Hs [_ [_ Ho]]]]]].
  split; [exact Ht|]. split; [exact (Hs eq_refl) | exact Ho].
Defined.

(** C9. The pack field of a [get_pack] response is the lowercase of the
    requested name; the pack field of a [render_payload] response is the
    requested name as sent.  So for a request that names an existing pack
    in a spelling that is not all lowercase, the two endpoints echo
    different strings. *)
Theorem pack_field_echo dk req :
  (forall resp, get_pack dk req = Ok resp ->
     PackResponse.pack resp = lower (PackRequest.pack req))
  /\ (forall payload, render_payload dk req = Ok payload ->
        Payload.pack payload = PackRequest.pack req)
  /\ (forall d,
        dir_lookup (pack_file (PackRequest.pack req)) (data_dir dk)
        = Some (Document (JObj d)) ->
        lower (PackRequest.pack req) <> PackRequest.pack req ->
        exists resp payload,
          get_pack dk req = Ok resp
          /\ render_payload dk req = Ok payload
          /\ PackResponse.pack resp <> Payload.pack payload).
Proof.
  assert (Hg : forall resp, get_pack dk req = Ok resp ->
                 PackResponse.pack resp = lower (PackRequest.pack req)).
  { intros resp H. unfold get_pack in H.
    destruct (load_pack dk (lower (PackRequest.pack req))) as [content|[]];
      try discriminate.
    destruct (filter_sections content (PackRequest.sections req));
      [|discriminate].
    simpl in H. now injection H as <-. }
  assert (Hr : forall payload, render_payload dk req = Ok payload ->
                 Payload.pack payload = PackRequest.pack req).
  { intros payload H. unfold render_payload in H.
    destruct (load_pack dk (lower (PackRequest.pack req))) as [content|[]];
      try discriminate.
    destruct (filter_sections content (PackRequest.sections req));
      [|discriminate].
    simpl in H. now injection H as <-. }
  split; [exact Hg|]. split; [exact Hr|].
  intros d Hdoc Hcase.
  assert (Hge : exists resp, get_pack dk req = Ok resp).
  { unfold get_pack. rewrite (load_pack_lower_document _ _ _ Hdoc).
    destruct (filter_sections_dict_ok d (PackRequest.sections req)) as [d' ->].
    simpl. eauto. }
  assert (Hre : exists payload, render_payload dk req = Ok payload).
  { unfold render_payload. rewrite (load_pack_lower_document _ _ _ Hdoc).
    destruct (filter_sections_dict_ok d (PackRequest.sections req)) as [d' ->].
    simpl. eauto. }
  destruct Hge as [resp Hge], Hre as [payload Hre].
  exists resp, payload. split; [exact Hge|]. split; [exact Hre|].
  now rewrite (Hg _ Hge), (Hr _ Hre).
Qed.

Lemma pack_field_echo_witness :
  exists resp payload,
    get_pack sample_disk (PackRequest.Make "NLP" None (Some "json") None) = Ok resp
    /\ render_payload sample_disk (PackRequest.Make "NLP" None (Some "json") None)
       = Ok payload
    /\ PackResponse.pack resp <> Payload.pack payload.
Proof.
  destruct (pack_field_echo sample_disk
              (PackRequest.Make "NLP" None (Some "json") None)) as [_ [_ H]].
  apply (H _ eq_refl). discriminate.
Defined.

(* ================================================================= *)
(** ** Schema endpoint *)

(** C8, as the code has it.  The schema endpoint never answers with a
    not-found status.  Without the metadata file it returns the body
    {"error": "config.json missing"} with status 200; with a metadata
    file that parses it returns the parsed contents with status 200.  The
    one error it can raise is the decode error of a metadata file that
    does not parse. *)
Theorem schema_answers dk :
  (config_json dk = None ->
     schema dk = Ok (JObj [("error", JStr "config.json missing")])
     /\ http_status (schema dk) = 200)
  /\ (forall j, config_json dk = Some (Document j) ->
        schema dk = Ok j /\ http_status (schema dk) = 200)
  /\ http_status (schema dk) <> 404
  /\ (forall e, schema dk = Raise e ->
        e = JSONDecodeError /\ config_json dk = Some Malformed).
Proof.
  unfold schema. destruct (config_json dk) as [[|j]|]; simpl.
  - split; [discriminate|]. split; [discriminate|]. split; [discriminate|].
    intros e H. now injection H as <-.
  - split; [discriminate|]. split; [|split; discriminate].
    intros j' H. now injection H as <-.
  - split; [now split|]. split; [discriminate|]. split; discriminate.
Qed.

Lemma schema_answers_witness :
  schema empty_disk = Ok (JObj [("error", JStr "config.json missing")])
  /\ http_status (schema empty_disk) = 200
  /\ schema sample_disk = Ok (JObj [("version", JStr "1")]).
Proof.
  destruct (schema_answers empty_disk) as [Hnone _].
  destruct (schema_answers sample_disk) as [_ [Hsome _]].
  destruct (Hnone eq_refl) as [H1 H2].
  destruct (Hsome _ eq_refl) as [H3 _].
  repeat split; assumption.
Defined.

(** C8 as stated fails: a metadata file that exists but does not parse
    makes the schema endpoint raise, and the caller gets status 500. *)
Lemma schema_raises_on_malformed_config :
  config_json broken_disk = Some Malformed
  /\ schema broken_disk = Raise JSONDecodeError
  /\ http_status (schema broken_disk) = 500.
Proof. repeat split; reflexivity. Qed.

(* ================================================================= *)
(** ** Worked examples *)

Example list_packs_sample : list_packs sample_disk = ["sales"; "nlp"].
Proof. reflexivity. Qed.

Example get_pack_sales :
  get_pack example_disk (PackRequest.Make "sales" None (Some "json") None)
  = Ok (PackResponse.Make "sales"
          (JObj [("opening", JStr "Build rapport fast.")])
          (Meta.Make (Some "json") [])).
Proof. reflexivity. Qed.

Example search_rapport :
  search_pack example_disk (SearchRequest.Make "rapport") None
  = Ok (SearchResponse.Make "rapport"
          [Hit.Make "sales" "opening" "Build rapport fast."]).
Proof. reflexivity. Qed.

Example get_pack_filtered :
  get_pack sample_disk
    (PackRequest.Make "SALES" (Some ["Closing"; "bonus"]) (Some "json") None)
  = Ok (PackResponse.Make "sales"
          (JObj [("Closing", JStr "Ask for the ORDER.")])
          (Meta.Make (Some "json") [])).
Proof. reflexivity. Qed.

Example preview_sales title format_value :
  preview title format_value example_disk "sales"
  = Ok ("<html><head><meta charset='utf-8'><title>Preview</title></head><body>"
        ++ "<h1>" ++ title "sales" ++ " Preview</h1>"
        ++ "<section><h2>opening</h2><p>Build rapport fast.</p></section>"
        ++ "</body></html>").
Proof.
  unfold preview. simpl. rewrite !append_assoc. reflexivity.
Qed.

(* ================================================================= *)
(** ** Further properties: the catalog *)

Lemma endswith_spec p s : endswith p s = true <-> exists pre, s = pre ++ p.
Proof.
  induction s as [|c s IH]; simpl.
  - rewrite orb_false_r, String.eqb_eq. split.
    + intros ->. now exists "".
    + intros [[|a pre] H]; [now symmetry | discriminate].
  - rewrite orb_true_iff, String.eqb_eq, IH. split.
    + intros [-> | [pre ->]]; [now exists "" | now exists (String c pre)].
    + intros [[|a pre] H]; [left; now symmetry|].
      right. simpl in H. injection H as _ H. now exists pre.
Qed.

Lemma split_head_prefix sep s : exists rest, s = split_head sep s ++ rest.
Proof.
  induction s as [|c s [rest IH]]; simpl.
  - exists "". now destruct (startswith sep "").
  - destruct (startswith sep (String c s)); [now exists (String c s)|].
    exists rest. simpl. now rewrite <- IH.
Qed.

Lemma split_head_found sep s :
  contains sep s = true -> exists rest, s = split_head sep s ++ sep ++ rest.
Proof.
  induction s as [|c s IH]; simpl.
  - rewrite orb_false_r. intros H. rewrite H.
    now apply startswith_spec in H.
  - destruct (startswith sep (String c s)) eqn:Hs; simpl.
    + intros _. now apply startswith_spec in Hs.
    + intros H. destruct (IH H) as [rest Hrest]. exists rest. now rewrite <- Hrest.
Qed.

Lemma startswith_app p s t :
  startswith p s = true -> startswith p (s ++ t) = true.
Proof.
  intros H. apply startswith_spec in H as [post ->].
  apply startswith_spec. exists (post ++ t). now rewrite append_assoc.
Qed.

Lemma split_head_free c sep s :
  contains (String c sep) (split_head (String c sep) s) = false.
Proof.
  induction s as [|a s IH].
  - simpl. reflexivity.
  - cbn [split_head]. destruct (startswith (String c sep) (String a s)) eqn:Hs.
    + reflexivity.
    + cbn [contains]. rewrite IH, orb_false_r.
      destruct (startswith (String c sep)
                  (String a (split_head (String c sep) s))) eqn:Hh;
        [|reflexivity].
      destruct (split_head_prefix (String c sep) s) as [rest Hrest].
      apply (startswith_app _ _ rest) in Hh. simpl append in Hh.
      rewrite <- Hrest in Hh. congruence.
Qed.

(** ".json" cannot begin inside a name and run over into a following
    ".json": its only full stop is its first character. *)
Lemma startswith_json_overlap name :
  startswith ".json" (name ++ ".json") = true ->
  name = "" \/ startswith ".json" name = true.
Proof.
  destruct name as [|c1 [|c2 [|c3 [|c4 [|c5 name]]]]]; simpl; auto;
    intros H; right;
    repeat match type of H with
           | context [Ascii.eqb ?a ?b] =>
               destruct (Ascii.eqb_spec a b); try discriminate; subst
           end;
    try discriminate; reflexivity.
Qed.

Lemma split_head_json_exact name :
  contains ".json" name = false ->
  split_head ".json" (name ++ ".json") = name.
Proof.
  induction name as [|c name IH]; intros H; [reflexivity|].
  cbn [contains] in H. apply orb_false_iff in H as [Hs Hc].
  change (String c name ++ ".json") with (String c (name ++ ".json")).
  cbn [split_head].
  destruct (startswith ".json" (String c (name ++ ".json"))) eqn:Hs'.
  - destruct (startswith_json_overlap (String c name) Hs') as [H0|H0];
      [discriminate | congruence].
  - now rewrite (IH Hc).
Qed.

Lemma dir_lookup_in fname dir f :
  dir_lookup fname dir = Some f -> In (fname, f) dir.
Proof.
  induction dir as [|[name g] dir IH]; simpl; [discriminate|].
  destruct (String.eqb_spec fname name) as [->|Hne].
  - intros H. injection H as ->. now left.
  - intros H. right. now apply IH.
Qed.

Lemma dir_lookup_unique fname dir f :
  NoDup (map fst dir) -> In (fname, f) dir -> dir_lookup fname dir = Some f.
Proof.
  induction dir as [|[name g] dir IH]; simpl; intros Hnd Hin; [contradiction|].
  inversion Hnd as [|? ? Hnotin Hnd']; subst.
  destruct Hin as [Heq|Hin].
  - injection Heq as -> ->. now rewrite String.eqb_refl.
  - destruct (String.eqb_spec fname name) as [->|Hne]; [|now apply IH].
    exfalso. apply Hnotin. apply in_map_iff. now exists (name, f).
Qed.

(** X1. Every name [list_packs] returns comes from a directory entry that
    ends in ".json" and begins with the name followed by ".json"; the
    name itself holds no ".json". *)
Theorem list_packs_sound dk name :
  In name (list_packs dk) ->
  contains ".json" name = false
  /\ exists rest,
       In (name ++ ".json" ++ rest) (dir_names dk)
       /\ endswith ".json" (name ++ ".json" ++ rest) = true.
Proof.
  unfold list_packs, listed_packs, dir_names. intros H.
  apply in_map_iff in H as [f [<- Hf]].
  apply filter_In in Hf as [Hin Hend].
  split; [apply split_head_free|].
  assert (Hc : contains ".json" f = true).
  { apply endswith_spec in Hend as [pre ->].
    apply contains_spec. exists pre, "". now destruct pre. }
  destruct (split_head_found _ _ Hc) as [rest Hrest].
  exists rest. rewrite <- Hrest. now split.
Qed.

Lemma list_packs_sound_witness :
  contains ".json" "nlp" = false
  /\ exists rest,
       In ("nlp" ++ ".json" ++ rest) (dir_names sample_disk)
       /\ endswith ".json" ("nlp" ++ ".json" ++ rest) = true.
Proof.
  apply (list_packs_sound sample_disk "nlp"). simpl. auto.
Defined.

(** X2. A directory entry [name.json] whose name holds no ".json" is
    listed by [list_packs] under exactly that name; and the listing has
    one name per entry that ends in ".json", so other files add nothing. *)
Theorem list_packs_complete dk name :
  contains ".json" name = false ->
  In (name ++ ".json") (dir_names dk) ->
  In name (list_packs dk)
  /\ List.length (list_packs dk)
     = List.length (filter (endswith ".json") (dir_names dk)).
Proof.
  unfold list_packs, listed_packs, dir_names. intros Hfree Hin. split.
  - apply in_map_iff. exists (name ++ ".json"). split.
    + now apply split_head_json_exact.
    + apply filter_In. split; [exact Hin|].
      apply endswith_spec. now exists name.
  - apply length_map.
Qed.

Lemma list_packs_complete_witness :
  In "sales" (list_packs sample_disk)
  /\ List.length (list_packs sample_disk)
     = List.length (filter (endswith ".json") (dir_names sample_disk)).
Proof.
  apply (list_packs_complete sample_disk "sales"); [reflexivity|].
  simpl. auto.
Defined.

(** X3. In a directory without repeated file names, a file [name.json]
    with a lowercase name that holds no ".json" is both listed by
    [list_packs] and fetched whole by [get_pack] without a filter: what
    the catalog offers, [get_pack] returns. *)
Theorem listed_pack_is_fetched dk name j fmt opts :
  NoDup (dir_names dk) ->
  In (name ++ ".json", Document j) (data_dir dk) ->
  lower name = name ->
  contains ".json" name = false ->
  In name (list_packs dk)
  /\ get_pack dk (PackRequest.Make name None fmt opts)
     = Ok (PackResponse.Make name j (Meta.Make fmt (or_empty opts))).
Proof.
  intros Hnd Hin Hlow Hfree. split.
  - apply list_packs_complete; [exact Hfree|].
    unfold dir_names. apply in_map_iff. now exists (name ++ ".json", Document j).
  - unfold get_pack. simpl. rewrite Hlow.
    rewrite (load_pack_document dk name j); [reflexivity|].
    unfold pack_file. rewrite Hlow. now apply dir_lookup_unique.
Qed.

Lemma listed_pack_is_fetched_witness :
  In "nlp" (list_packs sample_disk)
  /\ get_pack sample_disk (PackRequest.Make "nlp" None (Some "json") None)
     = Ok (PackResponse.Make "nlp" nlp_doc (Meta.Make (Some "json") [])).
Proof.
  apply (listed_pack_is_fetched sample_disk "nlp" nlp_doc (Some "json") None).
  - unfold dir_names. simpl. repeat constructor; simpl; intuition discriminate.
  - simpl. auto.
  - reflexivity.
  - reflexivity.
Defined.

(* ================================================================= *)
(** ** Further properties: fetching and rendering a pack *)

Lemma filter_sections_raises j keys e :
  filter_sections j keys = Raise e -> e = AttributeError.
Proof.
  destruct keys as [[|k ks]|]; simpl; try discriminate.
  destruct j; simpl; try discriminate; intros H; now injection H as <-.
Qed.

(** X4. [get_pack] reads the pack name without regard to case: two
    requests whose pack names agree in lowercase, and that are otherwise
    equal, get the same answer, error message included. *)
Theorem get_pack_ignores_case dk req req' :
  lower (PackRequest.pack req) = lower (PackRequest.pack req') ->
  PackRequest.sections req = PackRequest.sections req' ->
  PackRequest.format req = PackRequest.format req' ->
  PackRequest.options req = PackRequest.options req' ->
  get_pack dk req = get_pack dk req'.
Proof.
  intros Hp Hs Hf Ho. unfold get_pack. now rewrite Hp, Hs, Hf, Ho.
Qed.

Lemma get_pack_ignores_case_witness :
  get_pack sample_disk (PackRequest.Make "SaLeS" (Some ["opening"]) None None)
  = get_pack sample_disk (PackRequest.Make "sales" (Some ["opening"]) None None).
Proof.
  apply get_pack_ignores_case; reflexivity.
Defined.

(** X5. [get_pack] and [render_payload] agree on every request: one
    returns a body exactly when the other does, the payload's sections
    are the response's content, its options are the response's meta
    options, and in all cases the two answer with the same status. *)
Theorem render_payload_agrees_with_get_pack dk req :
  (forall resp, get_pack dk req = Ok resp ->
     exists payload,
       render_payload dk req = Ok payload
       /\ Payload.sections payload = PackResponse.content resp
       /\ Payload.options payload = Meta.options (PackResponse.meta resp))
  /\ (forall payload, render_payload dk req = Ok payload ->
        exists resp,
          get_pack dk req = Ok resp
          /\ PackResponse.content resp = Payload.sections payload)
  /\ http_status (get_pack dk req) = http_status (render_payload dk req).
Proof.
  unfold get_pack, render_payload.
  destruct (load_pack dk (lower (PackRequest.pack req))) as [content|[]];
    simpl; try (repeat split; intros ? H; discriminate H).
  destruct (filter_sections content (PackRequest.sections req)) as [filtered|e]
    eqn:Hf; simpl.
  - repeat split.
    + intros resp H. injection H as <-. simpl. eauto.
    + intros payload H. injection H as <-. simpl. eauto.
  - rewrite (filter_sections_raises _ _ _ Hf).
    repeat split; intros ? H; discriminate H.
Qed.

Lemma render_payload_agrees_with_get_pack_witness :
  exists payload,
    render_payload sample_disk
      (PackRequest.Make "Sales" (Some ["Closing"]) None None) = Ok payload
    /\ Payload.sections payload = JObj [("Closing", JStr "Ask for the ORDER.")].
Proof.
  pose (req := PackRequest.Make "Sales" (Some ["Closing"]) None None).
  destruct (render_payload_agrees_with_get_pack sample_disk req) as [H _].
  destruct (H _ eq_refl) as [payload [Hok [Hsec _]]].
  exists payload. split; [exact Hok | exact Hsec].
Defined.

(** X6. Each of [get_pack], [render_payload] and the preview answers 404
    exactly when the requested pack has no backing document; a document
    that exists but is unusable never yields 404. *)
Theorem not_found_iff_no_document dk req
    (title : string -> string) (format_value : json -> string) :
  (http_status (get_pack dk req) = 404
   <-> has_document dk (PackRequest.pack req) = false)
  /\ (http_status (render_payload dk req) = 404
      <-> has_document dk (PackRequest.pack req) = false)
  /\ (http_status (preview title format_value dk (PackRequest.pack req)) = 404
      <-> has_document dk (PackRequest.pack req) = false).
Proof.
  assert (Hfilter : forall j, http_status (filter_sections j (PackRequest.sections req)) <> 404).
  { intros j. destruct (filter_sections j (PackRequest.sections req)) eqn:Hf;
      [discriminate|].
    rewrite (filter_sections_raises _ _ _ Hf). discriminate. }
  split; [|split].
  - unfold get_pack.
    destruct (load_pack_cases dk (lower (PackRequest.pack req)))
      as [[Hd Hl]|[[Hd Hl]|[Hd [j Hl]]]];
      rewrite has_document_lower in Hd; rewrite Hl, Hd; simpl.
    + tauto.
    + split; discriminate.
    + specialize (Hfilter j).
      destruct (filter_sections j (PackRequest.sections req)) as [f|[]];
        simpl in *; split; solve [discriminate | intros; contradiction | congruence].
  - unfold render_payload.
    destruct (load_pack_cases dk (lower (PackRequest.pack req)))
      as [[Hd Hl]|[[Hd Hl]|[Hd [j Hl]]]];
      rewrite has_document_lower in Hd; rewrite Hl, Hd; simpl.
    + tauto.
    + split; discriminate.
    + specialize (Hfilter j).
      destruct (filter_sections j (PackRequest.sections req)) as [f|[]];
        simpl in *; split; solve [discriminate | intros; contradiction | congruence].
  - unfold preview.
    destruct (load_pack_cases dk (PackRequest.pack req))
      as [[Hd Hl]|[[Hd Hl]|[Hd [j Hl]]]]; rewrite Hl, Hd; simpl.
    + tauto.
    + split; discriminate.
    + destruct j; simpl; split; discriminate.
Qed.

Lemma not_found_iff_no_document_witness :
  http_status
    (get_pack broken_disk (PackRequest.Make "bad" None None None)) <> 404
  /\ http_status
       (get_pack broken_disk (PackRequest.Make "ghost" None None None)) = 404.
Proof.
  split.
  - intros H.
    destruct (not_found_iff_no_document broken_disk
                (PackRequest.Make "bad" None None None) title_stub format_stub)
      as [[Hforth _] _].
    discriminate (Hforth H).
  - destruct (not_found_iff_no_document broken_disk
                (PackRequest.Make "ghost" None None None) title_stub format_stub)
      as [[_ Hback] _].
    exact (Hback eq_refl).
Defined.

(** X7. A pack document that parses but is not a mapping: without a
    sections filter [get_pack] returns it as it is with status 200; with
    a non-empty filter the request fails with an attribute error and the
    caller gets status 500.  The same holds for [render_payload]. *)
Theorem non_mapping_document dk req j :
  dir_lookup (pack_file (PackRequest.pack req)) (data_dir dk)
  = Some (Document j) ->
  (forall d, j <> JObj d) ->
  (PackRequest.sections req = None \/ PackRequest.sections req = Some [] ->
     get_pack dk req
     = Ok (PackResponse.Make (lower (PackRequest.pack req)) j
             (Meta.Make (PackRequest.format req)
                        (or_empty (PackRequest.options req)))))
  /\ (forall k ks, PackRequest.sections req = Some (k :: ks) ->
        get_pack dk req = Raise AttributeError
        /\ render_payload dk req = Raise AttributeError
        /\ http_status (get_pack dk req) = 500).
Proof.
  intros Hdoc Hnot. unfold get_pack, render_payload.
  rewrite (load_pack_lower_document _ _ _ Hdoc). split.
  - intros [-> | ->]; reflexivity.
  - intros k ks ->. destruct j; simpl; auto.
    exfalso. now apply (Hnot entries).
Qed.

Lemma non_mapping_document_witness :
  get_pack array_disk (PackRequest.Make "Tips" None (Some "json") None)
  = Ok (PackResponse.Make "tips" (JArr [JStr "Smile."; JStr "Listen."])
          (Meta.Make (Some "json") []))
  /\ get_pack array_disk (PackRequest.Make "tips" (Some ["intro"]) None None)
     = Raise AttributeError.
Proof.
  split.
  - destruct (non_mapping_document array_disk
                (PackRequest.Make "Tips" None (Some "json") None)
                (JArr [JStr "Smile."; JStr "Listen."]) eq_refl
                ltac:(discriminate)) as [H _].
    apply H. now left.
  - destruct (non_mapping_document array_disk
                (PackRequest.Make "tips" (Some ["intro"]) None None)
                (JArr [JStr "Smile."; JStr "Listen."]) eq_refl
                ltac:(discriminate)) as [_ H].
    now destruct (H "intro" [] eq_refl).
Defined.

(* ================================================================= *)
(** ** Further properties: the section filter *)

Arguments in_list : simpl never.

Lemma filter_twice {A : Type} (f g : A -> bool) (l : list A) :
  filter f (filter g l) = filter (fun x => g x && f x) l.
Proof.
  induction l as [|x l IH]; simpl; [reflexivity|].
  destruct (g x); simpl; [destruct (f x)|]; now rewrite IH.
Qed.

Lemma filter_sections_nonempty (d : dict) ks :
  ks <> [] ->
  filter_sections (JObj d) (Some ks)
  = Ok (JObj (filter (fun kv => in_list (fst kv) ks) d)).
Proof. destruct ks; [contradiction | reflexivity]. Qed.

(** X8. Filtering a pack twice keeps the sections requested both times,
    in whichever order the two filters are applied; filtering again by
    the same keys changes nothing. *)
Theorem filter_sections_twice (d : dict) (ks1 ks2 : list string) :
  ks1 <> [] -> ks2 <> [] ->
  (r <- filter_sections (JObj d) (Some ks1) ;; filter_sections r (Some ks2))
  = Ok (JObj (filter (fun kv => in_list (fst kv) ks1 && in_list (fst kv) ks2) d))
  /\ (r <- filter_sections (JObj d) (Some ks1) ;; filter_sections r (Some ks2))
     = (r <- filter_sections (JObj d) (Some ks2) ;; filter_sections r (Some ks1))
  /\ (r <- filter_sections (JObj d) (Some ks1) ;; filter_sections r (Some ks1))
     = filter_sections (JObj d) (Some ks1).
Proof.
  intros H1 H2.
  rewrite !(filter_sections_nonempty d _ H1), (filter_sections_nonempty d _ H2).
  cbn [bind]. rewrite !filter_sections_nonempty by assumption.
  rewrite !filter_twice. repeat split.
  - do 2 f_equal. apply filter_ext. intros kv. apply andb_comm.
  - do 2 f_equal. apply filter_ext. intros kv. apply andb_diag.
Qed.

Lemma filter_sections_twice_witness :
  (r <- filter_sections sales_doc (Some ["opening"; "Closing"]) ;;
   filter_sections r (Some ["Closing"; "extra"]))
  = Ok (JObj [("Closing", JStr "Ask for the ORDER.")]).
Proof.
  destruct (filter_sections_twice
              [("opening", JStr "Build rapport fast.");
               ("Closing", JStr "Ask for the ORDER.")]
              ["opening"; "Closing"] ["Closing"; "extra"]
              ltac:(discriminate) ltac:(discriminate)) as [H _].
  exact H.
Defined.

(** X9. Only the set of requested keys matters: two non-empty key lists
    with the same members, in any order and with any repetitions, filter
    every document to the same result. *)
Theorem filter_sections_key_set (j : json) (ks ks' : list string) :
  ks <> [] ->
  (forall k, In k ks <-> In k ks') ->
  filter_sections j (Some ks) = filter_sections j (Some ks').
Proof.
  intros Hne Hsame.
  assert (Hne' : ks' <> []).
  { destruct ks as [|k ks]; [contradiction|].
    intros ->. apply (Hsame k). now left. }
  assert (Hbool : forall k, in_list k ks = in_list k ks').
  { intros k. apply eq_true_iff_eq. rewrite !in_list_In. apply Hsame. }
  destruct j; try (destruct ks, ks'; try contradiction; reflexivity).
  rewrite !filter_sections_nonempty by assumption.
  do 2 f_equal. apply filter_ext. intros kv. apply Hbool.
Qed.

Lemma filter_sections_key_set_witness :
  filter_sections sales_doc (Some ["Closing"; "opening"; "Closing"])
  = filter_sections sales_doc (Some ["opening"; "Closing"]).
Proof.
  apply filter_sections_key_set; [discriminate|].
  intros k. simpl. tauto.
Defined.

(** X10. The filtered pack lists its sections in the order of the
    document, not of the request, and is never longer than the document. *)
Theorem filter_sections_document_order (d d' : dict) (ks : list string) :
  ks <> [] ->
  filter_sections (JObj d) (Some ks) = Ok (JObj d') ->
  dict_keys d' = filter (fun k => in_list k ks) (dict_keys d)
  /\ List.length d' <= List.length d.
Proof.
  intros Hne H. rewrite (filter_sections_nonempty d ks Hne) in H.
  injection H as <-. split.
  - unfold dict_keys. induction d as [|[k v] d IH]; simpl; [reflexivity|].
    destruct (in_list k ks); simpl; now rewrite IH.
  - apply filter_length_le.
Qed.

Lemma filter_sections_document_order_witness :
  dict_keys [("opening", JStr "Build rapport fast.");
             ("Closing", JStr "Ask for the ORDER.")]
  = ["opening"; "Closing"]
  /\ 2 <= 2.
Proof.
  exact (filter_sections_document_order
           [("opening", JStr "Build rapport fast.");
            ("Closing", JStr "Ask for the ORDER.")]
           [("opening", JStr "Build rapport fast.");
            ("Closing", JStr "Ask for the ORDER.")]
           ["Closing"; "opening"] ltac:(discriminate) eq_refl).
Defined.

Lemma filter_unknown_keys (d : dict) ks :
  (forall k, In k ks -> ~ In k (dict_keys d)) ->
  filter (fun kv => in_list (fst kv) ks) d = [].
Proof.
  induction d as [|[k' v] d IH]; intros Hnone; simpl; [reflexivity|].
  destruct (in_list k' ks) eqn:Hk.
  - exfalso. apply in_list_In in Hk. apply (Hnone k' Hk). now left.
  - apply IH. intros k Hin Hd. apply (Hnone k Hin). now right.
Qed.

(** X11. For a pack whose document is a mapping: naming every key of the
    document in the sections filter returns the whole document, and
    naming only keys the document lacks returns the empty mapping with
    status 200, not an error. *)
Theorem get_pack_all_or_unknown_keys dk req d ks :
  dir_lookup (pack_file (PackRequest.pack req)) (data_dir dk)
  = Some (Document (JObj d)) ->
  PackRequest.sections req = Some ks ->
  ((forall k, In k (dict_keys d) -> In k ks) ->
     exists resp, get_pack dk req = Ok resp
                  /\ PackResponse.content resp = JObj d)
  /\ (ks <> [] -> (forall k, In k ks -> ~ In k (dict_keys d)) ->
        exists resp, get_pack dk req = Ok resp
                     /\ PackResponse.content resp = JObj []
                     /\ http_status (get_pack dk req) = 200).
Proof.
  intros Hdoc Hsec. unfold get_pack.
  rewrite (load_pack_lower_document _ _ _ Hdoc), Hsec. split.
  - intros Hall. destruct ks as [|k ks]; simpl; [eauto|].
    eexists. split; [reflexivity|]. simpl. f_equal.
    apply forallb_filter_id. apply forallb_forall. intros [k' v] Hin.
    apply in_list_In. apply Hall. unfold dict_keys.
    apply in_map_iff. now exists (k', v).
  - intros Hne Hnone. rewrite (filter_sections_nonempty d ks Hne). simpl.
    eexists. split; [reflexivity|]. split; [|reflexivity]. simpl. f_equal.
    now apply filter_unknown_keys.
Qed.

Lemma get_pack_all_or_unknown_keys_witness :
  exists resp,
    get_pack sample_disk (PackRequest.Make "sales" (Some ["bonus"]) None None)
    = Ok resp
    /\ PackResponse.content resp = JObj []
    /\ http_status
         (get_pack sample_disk
            (PackRequest.Make "sales" (Some ["bonus"]) None None)) = 200.
Proof.
  destruct (get_pack_all_or_unknown_keys sample_disk
              (PackRequest.Make "sales" (Some ["bonus"]) None None)
              [("opening", JStr "Build rapport fast.");
               ("Closing", JStr "Ask for the ORDER.")]
              ["bonus"] eq_refl eq_refl) as [_ H].
  apply H; [discriminate|].
  intros k [<-|[]] Hin. simpl in Hin. intuition discriminate.
Defined.

(* ================================================================= *)
(** ** Further properties: search *)

Lemma substring_of_trans a b c :
  substring_of a b -> substring_of b c -> substring_of a c.
Proof.
  intros [p1 [q1 ->]] [p2 [q2 ->]].
  exists (p2 ++ p1), (q1 ++ q2). now rewrite !append_assoc.
Qed.

Lemma lstrip_head s :
  lstrip s = "" \/ exists c t, lstrip s = String c t /\ isspace c = false.
Proof.
  induction s as [|c s IH]; simpl; [now left|].
  destruct (isspace c) eqn:Hc; [exact IH|]. right. now exists c, s.
Qed.

Lemma rstrip_idem s : rstrip (rstrip s) = rstrip s.
Proof.
  induction s as [|c s IH]; [reflexivity|].
  cbn [rstrip]. destruct (rstrip s) as [|a r] eqn:Hr.
  - destruct (isspace c) eqn:Hc; [reflexivity|].
    cbn [rstrip]. now rewrite Hc.
  - cbn [rstrip]. cbn [rstrip] in IH.
    destruct (rstrip r) as [|b r'].
    + destruct (isspace a); [discriminate IH|]. now rewrite IH.
    + now rewrite IH.
Qed.

Lemma strip_idem s : strip (strip s) = strip s.
Proof.
  unfold strip.
  assert (H : lstrip (rstrip (lstrip s)) = rstrip (lstrip s)).
  { destruct (lstrip_head s) as [-> | [c [t [-> Hc]]]]; [reflexivity|].
    cbn [rstrip]. destruct (rstrip t); rewrite ?Hc; simpl; now rewrite Hc. }
  now rewrite H, rstrip_idem.
Qed.

(** The normal form of a query is its own normal form. *)
Lemma normalize_idem q : lower (strip (lower (strip q))) = lower (strip q).
Proof. now rewrite strip_lower, lower_idem, strip_idem. Qed.

(** X12. The query field of a search answer is a fixed point: searching
    again with the returned query gives the same answer. *)
Theorem search_with_returned_query dk req pack resp :
  search_pack dk req pack = Ok resp ->
  search_pack dk (SearchRequest.Make (SearchResponse.query resp)) pack = Ok resp.
Proof.
  intros H. destruct (search_pack_results _ _ _ _ H) as [Hq _].
  rewrite <- H. unfold search_pack. simpl. now rewrite Hq, normalize_idem.
Qed.

Lemma search_with_returned_query_witness :
  search_pack sample_disk (SearchRequest.Make "rapport") None
  = Ok (SearchResponse.Make "rapport"
          [Hit.Make "sales" "opening" "Build rapport fast."]).
Proof.
  exact (search_with_returned_query sample_disk
           (SearchRequest.Make "  RAPPORT  ") None
           (SearchResponse.Make "rapport"
              [Hit.Make "sales" "opening" "Build rapport fast."])
           eq_refl).
Defined.

(** X13. A query that is part of another finds at least as much: when
    the normal form of [q1] is a substring of the normal form of [q2],
    every result of the search for [q2] is a result of the search for
    [q1] over the same scope, which answers whenever the other does. *)
Theorem search_shorter_query_finds_more dk req1 req2 pack resp2 :
  substring_of (lower (strip (SearchRequest.q req1)))
               (lower (strip (SearchRequest.q req2))) ->
  search_pack dk req2 pack = Ok resp2 ->
  exists resp1,
    search_pack dk req1 pack = Ok resp1
    /\ incl (SearchResponse.results resp2) (SearchResponse.results resp1).
Proof.
  intros Hsub H2.
  assert (Hs : forallb (searchable dk) (search_scope dk pack) = true)
    by (apply (search_pack_ok_iff dk req2 pack); eauto).
  destruct (proj2 (search_pack_ok_iff dk req1 pack) Hs) as [resp1 H1].
  exists resp1. split; [exact H1|].
  destruct (search_pack_results _ _ _ _ H1) as [_ Hres1].
  destruct (search_pack_results _ _ _ _ H2) as [_ Hres2].
  intros h Hh. apply Hres2 in Hh as [p [d [sec [text [-> [Hp [Hl [Hin Hm]]]]]]]].
  apply Hres1. exists p, d, sec, text. repeat split; auto.
  apply contains_spec. apply contains_spec in Hm.
  eapply substring_of_trans; eauto.
Qed.

Lemma search_shorter_query_finds_more_witness :
  exists resp1,
    search_pack sample_disk (SearchRequest.Make "a") None = Ok resp1
    /\ incl [Hit.Make "nlp" "anchoring" "Link a state to a trigger."]
            (SearchResponse.results resp1).
Proof.
  apply (search_shorter_query_finds_more sample_disk
           (SearchRequest.Make "a") (SearchRequest.Make "State")
           None
           (SearchResponse.Make "state"
              [Hit.Make "nlp" "anchoring" "Link a state to a trigger."])).
  - exists "st", "te". reflexivity.
  - reflexivity.
Defined.

(** X14. A search scoped to one pack labels every result with the pack
    name exactly as the caller wrote it, not in lowercase; and when that
    name is in the catalog, each of its results is also a result of the
    search over all packs. *)
Theorem scoped_search_results dk req p resp :
  truthy p = true ->
  search_pack dk req (Some p) = Ok resp ->
  (forall h, In h (SearchResponse.results resp) -> Hit.pack h = p)
  /\ (In p (list_packs dk) ->
      forall resp', search_pack dk req None = Ok resp' ->
        incl (SearchResponse.results resp) (SearchResponse.results resp')).
Proof.
  intros Ht H. destruct (search_pack_results _ _ _ _ H) as [_ Hres].
  assert (Hscope : search_scope dk (Some p) = [p]) by (simpl; now rewrite Ht).
  split.
  - intros h Hh. apply Hres in Hh as [p' [d [sec [text [-> [Hp _]]]]]].
    rewrite Hscope in Hp. destruct Hp as [<-|[]]. reflexivity.
  - intros Hlisted resp' H' h Hh.
    destruct (search_pack_results _ _ _ _ H') as [_ Hres'].
    apply Hres in Hh as [p' [d [sec [text [-> [Hp [Hl [Hin Hm]]]]]]]].
    rewrite Hscope in Hp. destruct Hp as [<-|[]].
    apply Hres'. exists p, d, sec, text. repeat split; auto.
Qed.

Lemma scoped_search_results_witness :
  Hit.pack (Hit.Make "SALES" "opening" "Build rapport fast.") = "SALES".
Proof.
  exact (proj1 (scoped_search_results sample_disk
                  (SearchRequest.Make "rapport") "SALES"
                  (SearchResponse.Make "rapport"
                     [Hit.Make "SALES" "opening" "Build rapport fast."])
                  eq_refl eq_refl)
           _ (or_introl eq_refl)).
Defined.

Lemma hits_flat_map (m : section -> bool) (g : string -> list section) l :
  map hit_of (filter m (flat_map g l))
  = flat_map (fun p => map hit_of (filter m (g p))) l.
Proof.
  induction l as [|p l IH]; simpl; [reflexivity|].
  now rewrite filter_app, map_app, IH.
Qed.

Lemma flat_map_ext_in {A B : Type} (f g : A -> list B) l :
  (forall x, In x l -> f x = g x) -> flat_map f l = flat_map g l.
Proof.
  induction l as [|x l IH]; simpl; intros H; [reflexivity|].
  rewrite (H x (or_introl eq_refl)), IH; [reflexivity|].
  intros y Hy. apply H. now right.
Qed.

(** The answer of a search scoped to one searchable pack. *)
Lemma scoped_results_spec dk req p :
  truthy p = true -> searchable dk p = true ->
  search_pack dk req (Some p)
  = Ok (SearchResponse.Make
          (lower (strip (SearchRequest.q req)))
          (map hit_of
               (filter (section_matches (lower (strip (SearchRequest.q req))))
                       (pack_sections dk p)))).
Proof.
  intros Ht Hs.
  assert (Hscope : search_scope dk (Some p) = [p]) by (simpl; now rewrite Ht).
  rewrite search_pack_spec by (rewrite Hscope; simpl; now rewrite Hs).
  rewrite Hscope. unfold scope_sections. simpl. now rewrite app_nil_r.
Qed.

(** X15. When no listed pack name is empty, the answer of a search over
    all packs is the concatenation, in catalog order, of the answers of
    the searches scoped to each listed pack: results keep the order of
    the listing and, within a pack, of the document. *)
Theorem unscoped_search_concatenates dk req resp :
  forallb truthy (list_packs dk) = true ->
  search_pack dk req None = Ok resp ->
  SearchResponse.results resp
  = flat_map (fun p => match search_pack dk req (Some p) with
                       | Ok r => SearchResponse.results r
                       | Raise _ => []
                       end) (list_packs dk)
  /\ forall p, In p (list_packs dk) ->
       exists r, search_pack dk req (Some p) = Ok r.
Proof.
  intros Ht H.
  assert (Hs : forallb (searchable dk) (list_packs dk) = true)
    by (apply (search_pack_ok_iff dk req None); eauto).
  rewrite (search_pack_spec dk req None Hs) in H. injection H as <-.
  cbn [SearchResponse.results search_scope]. unfold scope_sections.
  rewrite hits_flat_map. unfold list_packs in *.
  rewrite forallb_forall in Ht, Hs. split.
  - apply flat_map_ext_in. intros p Hp.
    now rewrite (scoped_results_spec dk req p (Ht p Hp) (Hs p Hp)).
  - intros p Hp. rewrite (scoped_results_spec dk req p (Ht p Hp) (Hs p Hp)).
    eauto.
Qed.

Lemma unscoped_search_concatenates_witness :
  SearchResponse.results
    (SearchResponse.Make "t"
       [Hit.Make "sales" "opening" "Build rapport fast.";
        Hit.Make "sales" "Closing" "Ask for the ORDER.";
        Hit.Make "nlp" "anchoring" "Link a state to a trigger."])
  = flat_map (fun p => match search_pack sample_disk (SearchRequest.Make "T")
                               (Some p) with
                       | Ok r => SearchResponse.results r
                       | Raise _ => []
                       end) (list_packs sample_disk).
Proof.
  apply (unscoped_search_concatenates sample_disk (SearchRequest.Make "T"));
    reflexivity.
Defined.

(* ================================================================= *)
(** ** Further properties: the preview *)

Lemma append_empty_r s : s ++ "" = s.
Proof. induction s as [|c s IH]; simpl; [reflexivity | now rewrite IH]. Qed.

(** The loop of the preview appends the markup of the entries in order. *)
Lemma preview_sections_join format_value (content : dict) : forall html,
  preview_sections format_value content html
  = html ++ join (map (section_html format_value) content).
Proof.
  induction content as [|[k v] content IH]; intros html.
  - simpl. now rewrite append_empty_r.
  - cbn [preview_sections map join]. rewrite IH.
    unfold section_html at 2. cbn [fst snd]. now rewrite !append_assoc.
Qed.

Lemma substring_of_join x pieces : In x pieces -> substring_of x (join pieces).
Proof.
  induction pieces as [|y pieces IH]; simpl; intros H; [contradiction|].
  destruct H as [->|H].
  - exists "", (join pieces). reflexivity.
  - destruct (IH H) as [pre [post Hj]]. exists (y ++ pre), post.
    now rewrite Hj, append_assoc.
Qed.

(** X16. For a pack whose document is a mapping the preview returns one
    HTML document: the fixed head, a heading made from the pack name as
    requested, one section element per entry in document order, and the
    closing tags.  Every section key and text stands in it character for
    character, with no escaping. *)
Theorem preview_document
    (title : string -> string) (format_value : json -> string) dk name d :
  dir_lookup (pack_file name) (data_dir dk) = Some (Document (JObj d)) ->
  let html := preview_head ++ "<h1>" ++ title name ++ " Preview</h1>"
              ++ join (map (section_html format_value) d)
              ++ "</body></html>" in
  preview title format_value dk name = Ok html
  /\ forall k text, In (k, JStr text) d ->
       substring_of
         ("<section><h2>" ++ k ++ "</h2><p>" ++ text ++ "</p></section>") html.
Proof.
  intros Hdoc html. split.
  - unfold preview. rewrite (load_pack_document _ _ _ Hdoc).
    cbn [items bind]. rewrite preview_sections_join.
    subst html. unfold preview_head. now rewrite !append_assoc.
  - intros k text Hin.
    apply (substring_of_trans _ (join (map (section_html format_value) d))).
    + apply substring_of_join, in_map_iff. exists (k, JStr text). now split.
    + exists (preview_head ++ "<h1>" ++ title name ++ " Preview</h1>"),
             "</body></html>".
      subst html. now rewrite !append_assoc.
Qed.

Lemma preview_document_witness :
  preview title_stub format_stub example_disk "SALES"
  = Ok (preview_head ++ "<h1>SALES Preview</h1>"
        ++ "<section><h2>opening</h2><p>Build rapport fast.</p></section>"
        ++ "</body></html>").
Proof.
  exact (proj1 (preview_document title_stub format_stub example_disk "SALES"
                  [("opening", JStr "Build rapport fast.")] eq_refl)).
Defined.

(* ================================================================= *)
(** ** Further properties: endpoints together *)

(** X17. [render_payload] reads the pack name without regard to case
    too: for two requests that differ only in the case of the pack name,
    one returns a payload exactly when the other does, and the payloads
    differ in nothing but the echoed pack field. *)
Theorem render_payload_ignores_case dk req req' payload :
  lower (PackRequest.pack req) = lower (PackRequest.pack req') ->
  PackRequest.sections req = PackRequest.sections req' ->
  PackRequest.options req = PackRequest.options req' ->
  render_payload dk req = Ok payload ->
  render_payload dk req'
  = Ok (Payload.Make (PackRequest.pack req') (Payload.style payload)
          (Payload.sections payload) (Payload.options payload)).
Proof.
  intros Hp Hs Ho H. unfold render_payload in *.
  rewrite <- Hp, <- Hs, <- Ho.
  destruct (load_pack dk (lower (PackRequest.pack req))) as [content|[]];
    try discriminate.
  destruct (filter_sections content (PackRequest.sections req));
    [|discriminate].
  simpl in *. now injection H as <-.
Qed.

Lemma render_payload_ignores_case_witness :
  exists payload,
    render_payload sample_disk (PackRequest.Make "NLP" None None None)
    = Ok payload
    /\ Payload.pack payload = "NLP"
    /\ Style.theme (Payload.style payload) = "nlp".
Proof.
  pose (req := PackRequest.Make "nlp" None None None).
  pose (req' := PackRequest.Make "NLP" None None None).
  destruct (render_payload sample_disk req) as [payload|] eqn:H;
    [|discriminate H].
  exists (Payload.Make "NLP" (Payload.style payload)
            (Payload.sections payload) (Payload.options payload)).
  split.
  - exact (render_payload_ignores_case sample_disk req req' payload
             eq_refl eq_refl eq_refl H).
  - injection H as <-. split; reflexivity.
Defined.

(** X18. Every result of a search can be fetched: asking [get_pack] for
    the pack and the one section a result names returns a mapping that
    holds that section, with a text of which the excerpt is the cut at
    300 characters. *)
Theorem search_result_is_fetchable dk sreq pack resp h fmt opts :
  search_pack dk sreq pack = Ok resp ->
  In h (SearchResponse.results resp) ->
  exists found d' text,
    get_pack dk (PackRequest.Make (Hit.pack h) (Some [Hit.section h]) fmt opts)
    = Ok found
    /\ PackResponse.content found = JObj d'
    /\ In (Hit.section h, JStr text) d'
    /\ Hit.excerpt h = slice_to 300 text.
Proof.
  intros H Hh. destruct (search_pack_results _ _ _ _ H) as [_ Hres].
  apply Hres in Hh as [p [d [sec [text [-> [_ [Hl [Hin _]]]]]]]].
  cbn [Hit.pack Hit.section Hit.excerpt].
  assert (Hl' : load_pack dk (lower p) = Ok (JObj d)).
  { unfold load_pack in *. rewrite pack_file_lower.
    destruct (dir_lookup (pack_file p) (data_dir dk)); [exact Hl | discriminate]. }
  unfold get_pack. cbn [PackRequest.pack PackRequest.sections].
  rewrite Hl', filter_sections_nonempty by discriminate. cbn [bind].
  eexists. exists (filter (fun kv => in_list (fst kv) [sec]) d), text.
  split; [reflexivity|]. split; [reflexivity|]. split; [|reflexivity].
  apply filter_In. split; [exact Hin|]. apply in_list_In. now left.
Qed.

Lemma search_result_is_fetchable_witness :
  exists found d' text,
    get_pack sample_disk
      (PackRequest.Make "Sales" (Some ["Closing"]) (Some "json") None)
    = Ok found
    /\ PackResponse.content found = JObj d'
    /\ In ("Closing", JStr text) d'
    /\ "Ask for the ORDER." = slice_to 300 text.
Proof.
  apply (search_result_is_fetchable sample_disk
           (SearchRequest.Make "order") (Some "Sales")
           (SearchResponse.Make "order"
              [Hit.Make "Sales" "Closing" "Ask for the ORDER."])
           (Hit.Make "Sales" "Closing" "Ask for the ORDER.")
           (Some "json") None eq_refl).
  simpl. auto.
Defined.
